(** * Dynamic Knowledge Base Assistant: the orchestration script [app.py]

    [app.py] is a Streamlit script: every user interaction re-executes it
    from top to bottom (one "render pass").  The embedding below follows the
    script line by line.

    - [World] is what survives a render pass: the process environment
      [os.environ], the store behind [@st.cache_resource] and
      [st.session_state].
    - [Inputs] is what the outside hands to one pass: the parsed [.env]
      file, the widget values, the name the OS picks for a temporary file
      and the behaviour of the remote agent call.
    - A pass is a computation in the monad [M]: it reads [Inputs], threads
      [World], may raise a Python exception, and emits the list of [event]s
      it caused (Streamlit elements and calls into the phi library).

    Python exceptions are modelled where the script's own control flow
    deals with them ([try]/[except] around [assistant.run], [st.stop()]) and
    where a statement of the script raises by the language's semantics
    ([os.environ[k] = None]).  Constructors of library objects and
    [knowledge_base.load] are taken to return normally. *)

From stdpp Require Import base option strings gmap list.
From Stdlib Require Import Lia.

(** ** Python values used by the script *)

(** Truthiness of a [str]: the empty string is falsy. *)
Definition str_truthy (s : string) : bool :=
  match s with
  | EmptyString => false
  | String _ _ => true
  end.

(** [needle in hay] on strings. *)
Fixpoint str_contains (needle hay : string) : bool :=
  String.prefix needle hay
  || match hay with
     | EmptyString => false
     | String _ hay' => str_contains needle hay'
     end.

(** The exception classes that occur.  [groq.APIStatusError] and [TypeError]
    derive from [Exception]; Streamlit's [StopException] derives from
    [BaseException] only, as do [KeyboardInterrupt] and the like
    ([OtherBaseException]). *)
Inductive exc_class :=
  | TypeError
  | KeyError
  | APIStatusError
  | OtherException
  | StopException
  | OtherBaseException.

#[global] Instance exc_class_eq_dec : EqDecision exc_class.
Proof. solve_decision. Defined.

Record exn := Exn { exn_class : exc_class; exn_str : string }.

Definition isinstance_Exception (e : exn) : bool :=
  match exn_class e with
  | TypeError | KeyError | APIStatusError | OtherException => true
  | StopException | OtherBaseException => false
  end.

Definition isinstance_APIStatusError (e : exn) : bool :=
  match exn_class e with
  | APIStatusError => true
  | _ => false
  end.

(** ** Library objects (phi), as the data the script puts into them *)

Inductive Embedder := GeminiEmbedder.

Record Groq := { groq_id : string; groq_embedder : option Embedder }.

Record PgVector2 := {
  collection : string;
  pg_db_url : string;
  embedder : Embedder }.

Record PDFReader := { chunk : bool }.

Record UploadedFile := { upload_name : string; upload_data : list Byte.byte }.

Inductive KnowledgeBase :=
  | PDFUrlKnowledgeBase (model : Groq) (urls : list string) (vector_db : PgVector2)
  | PDFKnowledgeBase (model : Groq) (path : string) (vector_db : PgVector2)
      (reader : PDFReader)
  | WebsiteKnowledgeBase (model : Groq) (urls : list string) (max_links : nat)
      (vector_db : PgVector2).

Definition vector_db_of (kb : KnowledgeBase) : PgVector2 :=
  match kb with
  | PDFUrlKnowledgeBase _ _ v => v
  | PDFKnowledgeBase _ _ v _ => v
  | WebsiteKnowledgeBase _ _ _ v => v
  end.

Record CombinedKnowledgeBase := {
  sources : list KnowledgeBase;
  combined_vector_db : PgVector2 }.

Record PgAgentStorage := { table_name : string; storage_db_url : string }.

Record Agent := {
  agent_model : Groq;
  agent_run_id : option string;
  user_id : string;
  agent_knowledge_base : CombinedKnowledgeBase;
  agent_storage : PgAgentStorage;
  show_tool_calls : bool;
  search_knowledge : bool;
  read_chat_history : bool;
  max_tokens : nat }.

(** What [assistant.run] hands back: an object that may or may not carry a
    [content] attribute, and that has a string conversion. *)
Record RunResponse := {
  content : option string;      (* [None]: no such attribute *)
  response_str : string }.      (* [str(response)] *)

Inductive run_outcome :=
  | Returns (r : RunResponse)
  | Raises (e : exn).

(** ** Events, inputs and state of a render pass *)

(** The two markdown blocks whose text is static HTML/CSS are named, the
    others carry their text. *)
Inductive markup :=
  | TitleBlock                  (* lines 33-44 *)
  | CustomCss                   (* lines 206-227 *)
  | Html (s : string).

Inductive event :=
  | StMarkdown (m : markup)
  | StTextInput (label placeholder : string)
  | StFileUploader (label : string)
  | StButton (label : string)
  | StError (msg : string)
  | StSuccess (msg : string)
  | StWarning (msg : string)
  | CacheMiss (func : string)   (* [st.cache_resource] runs the function *)
  | TempFileWrite (path : string) (data : list Byte.byte)
  | KBLoad (kb : CombinedKnowledgeBase) (recreate : bool)
  | AgentNew (a : Agent)
  | AgentRun (a : Agent) (question : string).

Definition transcript := list (string * string).

Record SessionState := {
  load_knowledge_base_flag : option bool;   (* key "load_knowledge_base" *)
  chat_history : option transcript }.       (* key "chat_history" *)

Record World := {
  os_environ : gmap string string;
  resource_cache : option (option CombinedKnowledgeBase);
  session_state : SessionState }.

Record Inputs := {
  dotenv_file : gmap string string;
  pdf_url_widget : string;
  uploaded_pdf_widget : option UploadedFile;
  website_url_widget : string;
  load_button_clicked : bool;
  question_widget : string;
  tmp_stem : string;
  assistant_run : Agent → string → run_outcome }.

(** ** The monad of a render pass *)

Inductive result (A : Type) :=
  | Ok (a : A)
  | Raise (e : exn).
Arguments Ok {A} a.
Arguments Raise {A} e.

Definition M (A : Type) : Type :=
  Inputs → World → result A * World * list event.

Definition ret {A} (a : A) : M A := λ _ w, (Ok a, w, []).

Definition bind {A B} (m : M A) (k : A → M B) : M B :=
  λ i w,
    match m i w with
    | (Ok a, w1, t1) =>
        match k a i w1 with
        | (r, w2, t2) => (r, w2, t1 ++ t2)
        end
    | (Raise e, w1, t1) => (Raise e, w1, t1)
    end.

Declare Scope py_scope.
Delimit Scope py_scope with py.
Notation "x ← m ; k" := (bind m (λ x, k))
  (at level 20, m at level 100, k at level 200, only parsing) : py_scope.
Notation "' pat ← m ; k" := (bind m (λ x, match x with pat => k end))
  (at level 20, pat pattern, m at level 100, k at level 200, only parsing) : py_scope.
Notation "m ;; k" := (bind m (λ _, k))
  (at level 100, k at level 200, right associativity, only parsing) : py_scope.
Open Scope py_scope.

Definition raise {A} (e : exn) : M A := λ _ w, (Raise e, w, []).
Definition emit (e : event) : M unit := λ _ w, (Ok tt, w, [e]).
Definition ask {A} (f : Inputs → A) : M A := λ i w, (Ok (f i), w, []).
Definition get {A} (f : World → A) : M A := λ _ w, (Ok (f w), w, []).
Definition modify (f : World → World) : M unit := λ _ w, (Ok tt, f w, []).

(** [try: body except ...: handlers]: [handlers e] is the first matching
    clause, [None] when no clause matches and [e] propagates. *)
Definition try_except {A} (body : M A) (handlers : exn → option (M A)) : M A :=
  λ i w,
    match body i w with
    | (Ok a, w1, t1) => (Ok a, w1, t1)
    | (Raise e, w1, t1) =>
        match handlers e with
        | Some h =>
            match h i w1 with
            | (r, w2, t2) => (r, w2, t1 ++ t2)
            end
        | None => (Raise e, w1, t1)
        end
    end.

(** [for x in xs: body x] *)
Fixpoint for_each {A} (xs : list A) (body : A → M unit) : M unit :=
  match xs with
  | [] => ret tt
  | x :: xs' => body x;; for_each xs' body
  end.

Definition is_Some_b {A} (o : option A) : bool :=
  match o with
  | Some _ => true
  | None => false
  end.

(** ** World updates *)

Definition set_environ (env : gmap string string) (w : World) : World :=
  {| os_environ := env;
     resource_cache := resource_cache w;
     session_state := session_state w |}.

Definition set_cache (c : option (option CombinedKnowledgeBase)) (w : World) : World :=
  {| os_environ := os_environ w;
     resource_cache := c;
     session_state := session_state w |}.

Definition set_session (s : SessionState) (w : World) : World :=
  {| os_environ := os_environ w;
     resource_cache := resource_cache w;
     session_state := s |}.

(** ** Streamlit and OS primitives *)

Definition st_markdown (m : markup) : M unit := emit (StMarkdown m).
Definition st_error (msg : string) : M unit := emit (StError msg).
Definition st_success (msg : string) : M unit := emit (StSuccess msg).
Definition st_warning (msg : string) : M unit := emit (StWarning msg).

(** [st.stop()] raises [StopException], which ends the pass. *)
Definition st_stop {A} : M A := raise (Exn StopException "").

Definition st_text_input (label placeholder : string) (value : Inputs → string)
  : M string :=
  emit (StTextInput label placeholder);; ask value.

Definition st_file_uploader (label : string) : M (option UploadedFile) :=
  emit (StFileUploader label);; ask uploaded_pdf_widget.

Definition st_button (label : string) : M bool :=
  emit (StButton label);; ask load_button_clicked.

(** [load_dotenv()]: variables of the [.env] file are added to the process
    environment; a variable that is already set keeps its value. *)
Definition load_dotenv : M unit :=
  d ← ask dotenv_file;
  modify (λ w, set_environ (os_environ w ∪ d) w).

(** [os.getenv(k)] *)
Definition os_getenv (k : string) : M (option string) :=
  get (λ w, os_environ w !! k).

(** [os.environ[k] = v]: only a [str] can be stored. *)
Definition os_environ_setitem (k : string) (v : option string) : M unit :=
  match v with
  | Some s => modify (λ w, set_environ (<[k := s]> (os_environ w)) w)
  | None => raise (Exn TypeError "str expected, not NoneType")
  end.

(** [os.environ[k]] *)
Definition os_environ_getitem (k : string) : M string :=
  v ← os_getenv k;
  match v with
  | Some s => ret s
  | None => raise (Exn KeyError k)
  end.

(** ** Lines 19-27: credentials *)

Definition missing_keys_msg : string := "Missing API Keys! Check your .env file.".

Definition check_credentials : M unit :=
  load_dotenv;;
  v ← os_getenv "GROQ_API_KEY"; os_environ_setitem "GROQ_API_KEY" v;;
  v ← os_getenv "GOOGLE_API_KEY"; os_environ_setitem "GOOGLE_API_KEY" v;;
  groq ← os_environ_getitem "GROQ_API_KEY";
  missing ←
    (if negb (str_truthy groq) then ret true
     else google ← os_environ_getitem "GOOGLE_API_KEY";
          ret (negb (str_truthy google)));
  if missing : bool then st_error missing_keys_msg;; st_stop else ret tt.

(** ** Lines 29-66: constants and the input section *)

Definition db_url : string := "postgresql+psycopg://ai:ai@localhost:5532/ai".
Definition llama3 : Groq := {| groq_id := "llama3-70b-8192"; groq_embedder := None |}.

Definition set_load_knowledge_base (b : bool) : M unit :=
  modify (λ w,
    set_session
      {| load_knowledge_base_flag := Some b;
         chat_history := chat_history (session_state w) |} w).

(** Returns the module globals [pdf_url_input], [uploaded_pdf_file] and
    [website_url_input]. *)
Definition input_section : M (string * option UploadedFile * string) :=
  st_markdown TitleBlock;;
  st_markdown (Html "### 📝 Input Sources");;
  pdf_url_input ←
    st_text_input "Enter PDF URL (Optional)"
      "e.g., https://example.com/document.pdf" pdf_url_widget;
  uploaded_pdf_file ← st_file_uploader "Upload PDF File (Optional)";
  website_url_input ←
    st_text_input "Enter Website URL (Optional)"
      "e.g., https://example.com" website_url_widget;
  clicked ← st_button "Load Knowledge Base";
  (if clicked : bool then set_load_knowledge_base true else ret tt);;
  ret (pdf_url_input, uploaded_pdf_file, website_url_input).

(** ** Lines 69-112: the three builders *)

Definition create_pdf_url_knowledge_base (pdf_url : string) : option KnowledgeBase :=
  if str_truthy pdf_url then
    Some (PDFUrlKnowledgeBase llama3 [pdf_url]
            {| collection := "pdf_url"; pg_db_url := db_url;
               embedder := GeminiEmbedder |})
  else None.

(** The uploaded payload is first written to a temporary file with suffix
    [.pdf]; an upload object is truthy whatever its content. *)
Definition create_local_pdf_knowledge_base (uploaded_file : option UploadedFile)
  : M (option KnowledgeBase) :=
  match uploaded_file with
  | Some f =>
      stem ← ask tmp_stem;
      let temp_pdf_path := String.append stem ".pdf" in
      emit (TempFileWrite temp_pdf_path (upload_data f));;
      ret (Some (PDFKnowledgeBase llama3 temp_pdf_path
                   {| collection := "pdf_documents"; pg_db_url := db_url;
                      embedder := GeminiEmbedder |}
                   {| chunk := true |}))
  | None => ret None
  end.

Definition create_website_knowledge_base (website_url : string) : option KnowledgeBase :=
  if str_truthy website_url then
    Some (WebsiteKnowledgeBase llama3 [website_url] 10
            {| collection := "website_documents"; pg_db_url := db_url;
               embedder := GeminiEmbedder |})
  else None.

(** ** Lines 114-135: the aggregator *)

(** [[s for s in sources if s]]: a knowledge-base object is truthy, [None]
    is not. *)
Definition truthy_sources (sources : list (option KnowledgeBase)) : list KnowledgeBase :=
  omap id sources.

Definition list_truthy {A} (l : list A) : bool :=
  match l with
  | [] => false
  | _ :: _ => true
  end.

Definition create_combined_knowledge_base
    (pdf_url_input : string) (uploaded_pdf_file : option UploadedFile)
    (website_url_input : string) : M (option CombinedKnowledgeBase) :=
  let sources : list (option KnowledgeBase) := [] in
  sources ←
    (if str_truthy pdf_url_input then
       ret (sources ++ [create_pdf_url_knowledge_base pdf_url_input])
     else ret sources);
  sources ←
    (if is_Some_b uploaded_pdf_file then
       kb ← create_local_pdf_knowledge_base uploaded_pdf_file;
       ret (sources ++ [kb])
     else ret sources);
  sources ←
    (if str_truthy website_url_input then
       ret (sources ++ [create_website_knowledge_base website_url_input])
     else ret sources);
  if list_truthy sources then
    ret (Some {| sources := truthy_sources sources;
                 combined_vector_db :=
                   {| collection := "combined_documents"; pg_db_url := db_url;
                      embedder := GeminiEmbedder |} |})
  else ret None.

(** ** Lines 137-154: storage, memoised load, load section *)

Definition storage : PgAgentStorage :=
  {| table_name := "website_assistant"; storage_db_url := db_url |}.

(** [@st.cache_resource] on a function without arguments: one slot per
    process.  On a miss the function runs and its result (also [None]) is
    stored; if it raises, nothing is stored. *)
Definition st_cache_resource (func : string) (body : M (option CombinedKnowledgeBase))
  : M (option CombinedKnowledgeBase) :=
  c ← get resource_cache;
  match c with
  | Some v => ret v
  | None =>
      emit (CacheMiss func);;
      v ← body;
      modify (set_cache (Some v));;
      ret v
  end.

Definition load_knowledge_base
    (pdf_url_input : string) (uploaded_pdf_file : option UploadedFile)
    (website_url_input : string) : M (option CombinedKnowledgeBase) :=
  st_cache_resource "load_knowledge_base"
    (knowledge_base ←
       create_combined_knowledge_base pdf_url_input uploaded_pdf_file website_url_input;
     match knowledge_base with
     | Some kb => emit (KBLoad kb true)
     | None => ret tt
     end;;
     ret knowledge_base).

Definition success_msg : string := "Knowledge Base Loaded Successfully!".
Definition warning_msg : string :=
  "No knowledge bases available. Please configure at least one valid source.".

(** [st.session_state.get("load_knowledge_base", False)] as a condition. *)
Definition load_requested (s : SessionState) : bool :=
  default false (load_knowledge_base_flag s).

Definition load_section
    (pdf_url_input : string) (uploaded_pdf_file : option UploadedFile)
    (website_url_input : string) : M (option CombinedKnowledgeBase) :=
  s ← get session_state;
  if load_requested s then
    knowledge_base ← load_knowledge_base pdf_url_input uploaded_pdf_file website_url_input;
    match knowledge_base with
    | Some _ => st_success success_msg
    | None => st_warning warning_msg
    end;;
    ret knowledge_base
  else ret None.

(** ** Lines 156-196: the chat section *)

Definition too_large_marker : string := "Request too large".
Definition too_large_msg : string :=
  "The request is too large for the model to handle. Please shorten your query or provide more specific input.".

Definition new_agent (knowledge_base : CombinedKnowledgeBase) : Agent :=
  {| agent_model := {| groq_id := "llama3-70b-8192";
                       groq_embedder := Some GeminiEmbedder |};
     agent_run_id := None;
     user_id := "user";
     agent_knowledge_base := knowledge_base;
     agent_storage := storage;
     show_tool_calls := false;
     search_knowledge := true;
     read_chat_history := true;
     max_tokens := 5000 |}.

(** [assistant.run(user_input)] *)
Definition agent_run (assistant : Agent) (question : string) : M RunResponse :=
  emit (AgentRun assistant question);;
  run ← ask assistant_run;
  match run assistant question with
  | Returns r => ret r
  | Raises e => raise e
  end.

(** [response.content if hasattr(response, 'content') else str(response)] *)
Definition clean_response (response : RunResponse) : string :=
  match content response with
  | Some c => c
  | None => response_str response
  end.

(** [st.session_state["chat_history"]] *)
Definition get_chat_history : M transcript :=
  s ← get session_state;
  match chat_history s with
  | Some h => ret h
  | None => raise (Exn KeyError "chat_history")
  end.

Definition set_chat_history (h : transcript) : M unit :=
  modify (λ w,
    set_session
      {| load_knowledge_base_flag := load_knowledge_base_flag (session_state w);
         chat_history := Some h |} w).

(** [st.session_state["chat_history"].append(entry)] *)
Definition chat_history_append (entry : string * string) : M unit :=
  h ← get_chat_history;
  set_chat_history (h ++ [entry]).

(** The two [except] clauses of lines 188-194, in order. *)
Definition chat_handlers (e : exn) : option (M unit) :=
  if isinstance_APIStatusError e then
    Some (if str_contains too_large_marker (exn_str e) then st_error too_large_msg
          else st_error (String.append "An error occurred: " (exn_str e)))
  else if isinstance_Exception e then
    Some (st_error (String.append "An unexpected error occurred: " (exn_str e)))
  else None.

(** Lines 156-196.  [run_id] (line 163) is always [None]; the assignment
    [user_input = ""] of line 196 rebinds a variable that is not read again
    and leaves the widget as it is. *)
Definition chat_section (knowledge_base : option CombinedKnowledgeBase) : M unit :=
  st_markdown (Html "### 💬 Chat with Assistant");;
  user_input ←
    st_text_input "Ask a question:" "e.g., What is machine learning?" question_widget;
  s ← get session_state;
  (if is_Some_b (chat_history s) then ret tt else set_chat_history []);;
  match str_truthy user_input, knowledge_base with
  | true, Some kb =>
      let assistant := new_agent kb in
      emit (AgentNew assistant);;
      try_except
        (response ← agent_run assistant user_input;
         let clean := clean_response response in
         chat_history_append ("You", user_input);;
         chat_history_append ("Assistant", clean))
        chat_handlers
  | _, _ => ret tt
  end.

(** ** Lines 198-227: transcript display and styling *)

Definition you_line (text : string) : markup :=
  Html (String.append "<div style='text-align: left; color: #333;'><strong>You:</strong> "
          (String.append text "</div>")).

Definition assistant_line (text : string) : markup :=
  Html (String.append
          "<div style='text-align: left; color: #4a90e2;'><strong>Assistant:</strong> "
          (String.append text "</div>")).

Definition display_entry (entry : string * string) : M unit :=
  let '(speaker, text) := entry in
  if String.eqb speaker "You" then st_markdown (you_line text)
  else st_markdown (assistant_line text).

Definition display_section : M unit :=
  h ← get_chat_history;
  for_each h display_entry;;
  st_markdown CustomCss.

(** ** The whole script: one render pass

    [knowledge_base_phase] is the script up to line 154 and returns the
    module global [knowledge_base]; [app] is the whole script and returns
    the same global at the end of the pass. *)
Definition knowledge_base_phase : M (option CombinedKnowledgeBase) :=
  check_credentials;;
  '(pdf_url_input, uploaded_pdf_file, website_url_input) ← input_section;
  load_section pdf_url_input uploaded_pdf_file website_url_input.

Definition app : M (option CombinedKnowledgeBase) :=
  knowledge_base ← knowledge_base_phase;
  chat_section knowledge_base;;
  display_section;;
  ret knowledge_base.

(** A session is a sequence of render passes over the same world.  A pass
    that ends in an exception (also [st.stop()]) leaves the session alive:
    the next interaction runs the script again. *)
Fixpoint run_passes (passes : list Inputs) (w : World) : World * list event :=
  match passes with
  | [] => (w, [])
  | i :: passes' =>
      match app i w with
      | (_, w1, t1) =>
          match run_passes passes' w1 with
          | (w2, t2) => (w2, t1 ++ t2)
          end
      end
  end.

(** A world whose session has just been opened: [st.session_state] is
    empty. *)
Definition new_session (env : gmap string string)
    (cache : option (option CombinedKnowledgeBase)) : World :=
  {| os_environ := env;
     resource_cache := cache;
     session_state := {| load_knowledge_base_flag := None; chat_history := None |} |}.

(** ** Observations used in the statements *)

(** The transcript as a sequence: an absent key is the empty transcript. *)
Definition transcript_of (w : World) : transcript :=
  default [] (chat_history (session_state w)).

(** The environment as [check_credentials] sees it after [load_dotenv()]. *)
Definition effective_env (i : Inputs) (w : World) : gmap string string :=
  os_environ w ∪ dotenv_file i.

Definition credential_set (env : gmap string string) (k : string) : bool :=
  match env !! k with
  | Some v => str_truthy v
  | None => false
  end.

Definition credentials_ok (env : gmap string string) : bool :=
  credential_set env "GROQ_API_KEY" && credential_set env "GOOGLE_API_KEY".

(** Kinds of events, to select the part of a pass's events a statement is
    about ([List.filter kind events]). *)
Definition is_error (e : event) : bool :=
  match e with StError _ => true | _ => false end.

Definition is_banner (e : event) : bool :=
  match e with StSuccess _ | StWarning _ => true | _ => false end.

Definition is_cache_miss (e : event) : bool :=
  match e with CacheMiss _ => true | _ => false end.

Definition is_kb_load (e : event) : bool :=
  match e with KBLoad _ _ => true | _ => false end.

Definition is_agent_event (e : event) : bool :=
  match e with AgentNew _ | AgentRun _ _ => true | _ => false end.

Definition is_temp_write (e : event) : bool :=
  match e with TempFileWrite _ _ => true | _ => false end.

Definition is_markdown (e : event) : bool :=
  match e with StMarkdown _ => true | _ => false end.

(** * Definitions used in the statements and proofs *)

(** ** Events and worlds of the sections of the script *)

(** [t] happened before the events of [x]. *)
Definition prefix_events {A} (t : list event) (x : result A * World * list event)
  : result A * World * list event :=
  match x with
  | (r, w, t') => (r, w, t ++ t')
  end.

(** The elements of lines 33-65, in order. *)
Definition input_events : list event :=
  [ StMarkdown TitleBlock;
    StMarkdown (Html "### 📝 Input Sources");
    StTextInput "Enter PDF URL (Optional)" "e.g., https://example.com/document.pdf";
    StFileUploader "Upload PDF File (Optional)";
    StTextInput "Enter Website URL (Optional)" "e.g., https://example.com";
    StButton "Load Knowledge Base" ].

(** The world after line 66. *)
Definition after_click (i : Inputs) (w : World) : World :=
  if load_button_clicked i then
    set_session {| load_knowledge_base_flag := Some true;
                   chat_history := chat_history (session_state w) |} w
  else w.

(** The world after lines 19-66 when the credential check passes. *)
Definition after_inputs (i : Inputs) (w : World) : World :=
  after_click i (set_environ (effective_env i w) w).

(** None of the three source inputs is populated. *)
Definition all_empty (p : string) (u : option UploadedFile) (s : string) : bool :=
  negb (str_truthy p) && negb (is_Some_b u) && negb (str_truthy s).

(** The call of line 144, if there is a handle. *)
Definition load_events (r : option CombinedKnowledgeBase) : list event :=
  match r with
  | Some kb => [KBLoad kb true]
  | None => []
  end.

(** The message of lines 151-154. *)
Definition banner (r : option CombinedKnowledgeBase) : event :=
  match r with
  | Some _ => StSuccess success_msg
  | None => StWarning warning_msg
  end.

(** The elements of lines 157-162. *)
Definition chat_widgets : list event :=
  [ StMarkdown (Html "### 💬 Chat with Assistant");
    StTextInput "Ask a question:" "e.g., What is machine learning?" ].

(** The world with [st.session_state["chat_history"]] equal to [h]. *)
Definition with_history (h : transcript) (w : World) : World :=
  set_session
    {| load_knowledge_base_flag := load_knowledge_base_flag (session_state w);
       chat_history := Some h |} w.

(** Lines 169-182: the agent is constructed and run. *)
Definition agent_events (kb : CombinedKnowledgeBase) (q : string) : list event :=
  [AgentNew (new_agent kb); AgentRun (new_agent kb) q].

(** The elements the loop of lines 199-203 shows for [h], in order. *)
Definition display_events (h : transcript) : list event :=
  map (λ entry,
         StMarkdown (if String.eqb entry.1 "You" then you_line entry.2
                     else assistant_line entry.2)) h.

(** Lines 199-227. *)
Definition display_tail (h : transcript) : list event :=
  display_events h ++ [StMarkdown CustomCss].

(** Events of the chat section and of the display. *)
Definition is_chat_event (e : event) : bool :=
  match e with
  | StMarkdown _ | StTextInput _ _ | StError _ | AgentNew _ | AgentRun _ _ => true
  | _ => false
  end.

(** Events of the script up to the load section when it completes. *)
Definition is_load_event (e : event) : bool :=
  match e with
  | StMarkdown _ | StTextInput _ _ | StFileUploader _ | StButton _
  | StSuccess _ | StWarning _ | CacheMiss _ | TempFileWrite _ _ | KBLoad _ _ => true
  | _ => false
  end.

(** ** Outcomes *)

(** The four ways lines 19-154 can go. *)
Inductive phase_outcome (i : Inputs) (w : World)
  : result (option CombinedKnowledgeBase) * World * list event → Prop :=
  | phase_halt e t :
      credentials_ok (effective_env i w) = false →
      t = [] ∨ t = [StError missing_keys_msg] →
      phase_outcome i w (Raise e, set_environ (effective_env i w) w, t)
  | phase_idle :
      credentials_ok (effective_env i w) = true →
      load_button_clicked i || load_requested (session_state w) = false →
      phase_outcome i w (Ok None, after_inputs i w, input_events)
  | phase_hit v :
      credentials_ok (effective_env i w) = true →
      load_button_clicked i || load_requested (session_state w) = true →
      resource_cache w = Some v →
      phase_outcome i w (Ok v, after_inputs i w, input_events ++ [banner v])
  | phase_miss r t :
      credentials_ok (effective_env i w) = true →
      load_button_clicked i || load_requested (session_state w) = true →
      resource_cache w = None →
      is_Some_b r =
        negb (all_empty (pdf_url_widget i) (uploaded_pdf_widget i) (website_url_widget i)) →
      Forall (λ e, is_temp_write e = true) t →
      phase_outcome i w
        (Ok r, set_cache (Some r) (after_inputs i w),
         input_events ++ CacheMiss "load_knowledge_base" :: t ++ load_events r ++ [banner r]).

(** An [except] clause of lines 188-194 catches [e] and shows [msg]. *)
Definition handled_by (e : exn) (msg : string) : Prop :=
  ∀ i w, ∃ h, chat_handlers e = Some h ∧ h i w = (Ok tt, w, [StError msg]).

(** The transcript [h] is [h0], or [h0] with one turn added at the end. *)
Definition turn_added (h0 h : transcript) : Prop :=
  h = h0 ∨ ∃ q a, h = h0 ++ [("You", q); ("Assistant", a)].

(** A transcript made of turns: a question and, right after it, its
    answer. *)
Inductive paired : transcript → Prop :=
  | paired_nil : paired []
  | paired_turn q a h :
      paired h → paired (("You", q) :: ("Assistant", a) :: h).

(** The world [w'] and the events [t] of a pass, relative to the world [w]
    before it. *)
Record pass_frame (i : Inputs) (w w' : World) (t : list event) : Prop := {
  frame_environ : os_environ w' = effective_env i w;
  frame_transcript : turn_added (transcript_of w) (transcript_of w');
  frame_flag_kept :
    load_requested (session_state w) = true →
    load_requested (session_state w') = true;
  frame_flag_set :
    load_requested (session_state w') = true →
    load_requested (session_state w) = true
    ∨ credentials_ok (effective_env i w) = true ∧ is_Some (resource_cache w');
  frame_cache_kept :
    ∀ v, resource_cache w = Some v →
      resource_cache w' = Some v
      ∧ List.filter is_cache_miss t = [] ∧ List.filter is_kb_load t = [];
  frame_cache_filled :
    (resource_cache w' = resource_cache w
     ∧ List.filter is_cache_miss t = [] ∧ List.filter is_kb_load t = [])
    ∨ (is_Some (resource_cache w')
       ∧ length (List.filter is_cache_miss t) = 1
       ∧ length (List.filter is_kb_load t) ≤ 1) }.

(** Once the flag is set, the credentials are in the process environment
    and a result is memoised. *)
Definition flag_invariant (w : World) : Prop :=
  load_requested (session_state w) = true →
  credentials_ok (os_environ w) = true ∧ is_Some (resource_cache w).

(** ** Example inputs *)

Definition example_env : gmap string string :=
  <["GROQ_API_KEY" := "gsk_example"]> (<["GOOGLE_API_KEY" := "AIza_example"]> ∅).

(** An environment in which [GROQ_API_KEY] is not set. *)
Definition example_env_no_groq : gmap string string :=
  <["GOOGLE_API_KEY" := "AIza_example"]> ∅.

Definition example_inputs (pdf_url question : string) (clicked : bool)
    (outcome : run_outcome) : Inputs :=
  {| dotenv_file := ∅;
     pdf_url_widget := pdf_url;
     uploaded_pdf_widget := None;
     website_url_widget := "";
     load_button_clicked := clicked;
     question_widget := question;
     tmp_stem := "/tmp/tmpk3v9x2";
     assistant_run := λ _ _, outcome |}.

Definition example_response (text : string) : RunResponse :=
  {| content := Some text; response_str := "RunResponse(...)" |}.

Definition example_answer (text : string) : run_outcome :=
  Returns (example_response text).

(** ** Further observations *)

Definition is_agent_run (e : event) : bool :=
  match e with AgentRun _ _ => true | _ => false end.

(** The write of lines 84-86 for the upload [u], if there is one. *)
Definition temp_events_of (u : option UploadedFile) (i : Inputs) : list event :=
  match u with
  | Some f => [TempFileWrite (String.append (tmp_stem i) ".pdf") (upload_data f)]
  | None => []
  end.

(** The collections of the sources a combined handle is built from, for
    the given inputs: one per populated input, in the order of lines
    117-124. *)
Definition source_collections (p : string) (u : option UploadedFile) (s : string)
  : list string :=
  (if str_truthy p then ["pdf_url"] else [])
  ++ (if is_Some_b u then ["pdf_documents"] else [])
  ++ (if str_truthy s then ["website_documents"] else []).

(** The load path is taken in this pass (line 149). *)
Definition load_path (i : Inputs) (w : World) : bool :=
  load_button_clicked i || load_requested (session_state w).

(** The pass runs the body of [load_knowledge_base]: it gets past the
    credential check, takes the load path and finds nothing memoised. *)
Definition pass_builds (i : Inputs) (w : World) : bool :=
  credentials_ok (effective_env i w) && load_path i w
  && negb (is_Some_b (resource_cache w)).

(** * Reasoning about render passes *)

(** ** Monad laws, as rewriting rules for running a computation *)

Lemma prefix_events_nil {A} (x : result A * World * list event) : prefix_events [] x = x.
Proof. by destruct x as [[??]?]. Qed.

Lemma prefix_events_app {A} t1 t2 (x : result A * World * list event) :
  prefix_events t1 (prefix_events t2 x) = prefix_events (t1 ++ t2) x.
Proof. destruct x as [[??]?]. cbn. by rewrite (assoc_L (++)). Qed.

Lemma run_ret {A} (a : A) i w : ret a i w = (Ok a, w, []).
Proof. reflexivity. Qed.

Lemma run_raise {A} (e : exn) i w : @raise A e i w = (Raise e, w, []).
Proof. reflexivity. Qed.

Lemma run_emit (e : event) i w : emit e i w = (Ok tt, w, [e]).
Proof. reflexivity. Qed.

Lemma run_ask {A} (f : Inputs → A) i w : ask f i w = (Ok (f i), w, []).
Proof. reflexivity. Qed.

Lemma run_get {A} (f : World → A) i w : get f i w = (Ok (f w), w, []).
Proof. reflexivity. Qed.

Lemma run_modify (f : World → World) i w : modify f i w = (Ok tt, f w, []).
Proof. reflexivity. Qed.

Section monad_laws.
Context {A B C : Type}.
Implicit Types (i : Inputs) (w : World).

Lemma bind_prefix (m : M A) (k : A → M B) i w :
  bind m k i w =
    match m i w with
    | (Ok a, w1, t1) => prefix_events t1 (k a i w1)
    | (Raise e, w1, t1) => (Raise e, w1, t1)
    end.
Proof. reflexivity. Qed.

Lemma run_bind_ret (a : A) (k : A → M B) i w : bind (ret a) k i w = k a i w.
Proof. unfold bind; cbn. by destruct (k _ i _) as [[??]?]. Qed.

Lemma run_bind_raise (e : exn) (k : A → M B) i w :
  bind (raise e) k i w = (Raise e, w, []).
Proof. reflexivity. Qed.

Lemma run_bind_emit (e : event) (k : unit → M B) i w :
  bind (emit e) k i w = prefix_events [e] (k tt i w).
Proof. reflexivity. Qed.

Lemma run_bind_ask (f : Inputs → A) (k : A → M B) i w :
  bind (ask f) k i w = k (f i) i w.
Proof. unfold bind; cbn. by destruct (k _ i _) as [[??]?]. Qed.

Lemma run_bind_get (f : World → A) (k : A → M B) i w :
  bind (get f) k i w = k (f w) i w.
Proof. unfold bind; cbn. by destruct (k _ i _) as [[??]?]. Qed.

Lemma run_bind_modify (f : World → World) (k : unit → M B) i w :
  bind (modify f) k i w = k tt i (f w).
Proof. unfold bind; cbn. by destruct (k _ i _) as [[??]?]. Qed.

Lemma run_bind_bind (m : M A) (k : A → M B) (h : B → M C) i w :
  bind (bind m k) h i w = bind m (λ a, bind (k a) h) i w.
Proof.
  unfold bind.
  destruct (m i w) as [[[a|e] w1] t1]; [|done].
  destruct (k a i w1) as [[[b|e] w2] t2]; [|done].
  destruct (h b i w2) as [[r w3] t3]. by rewrite (assoc_L (++)).
Qed.
End monad_laws.

Lemma try_except_run {A} (body : M A) (handlers : exn → option (M A)) i w :
  try_except body handlers i w =
    match body i w with
    | (Ok a, w1, t1) => (Ok a, w1, t1)
    | (Raise e, w1, t1) =>
        match handlers e with
        | Some h => prefix_events t1 (h i w1)
        | None => (Raise e, w1, t1)
        end
    end.
Proof. reflexivity. Qed.

Create HintDb py discriminated.
#[local] Hint Unfold st_markdown st_error st_success st_warning st_stop st_text_input
  st_file_uploader st_button load_dotenv os_getenv os_environ_setitem
  os_environ_getitem : py.

Ltac run_step :=
  first
    [ rewrite run_bind_bind
    | rewrite run_bind_ret
    | rewrite run_bind_raise
    | rewrite run_bind_emit
    | rewrite run_bind_ask
    | rewrite run_bind_get
    | rewrite run_bind_modify
    | rewrite prefix_events_app
    | rewrite run_ret
    | rewrite run_raise
    | rewrite run_emit
    | rewrite run_ask
    | rewrite run_get
    | rewrite run_modify
    | progress cbn [set_environ set_cache set_session os_environ resource_cache
                    session_state load_knowledge_base_flag chat_history
                    prefix_events negb andb orb is_Some_b list_truthy Datatypes.app] ].
Ltac run := repeat run_step.

Lemma check_credentials_spec i w :
  check_credentials i w =
    let env := effective_env i w in
    (match env !! "GROQ_API_KEY", env !! "GOOGLE_API_KEY" with
     | Some g, Some k => if str_truthy g && str_truthy k then Ok tt else Raise (Exn StopException "")
     | _, _ => Raise (Exn TypeError "str expected, not NoneType")
     end,
     set_environ env w,
     match env !! "GROQ_API_KEY", env !! "GOOGLE_API_KEY" with
     | Some g, Some k => if str_truthy g && str_truthy k then [] else [StError missing_keys_msg]
     | _, _ => []
     end).
Proof.
  unfold check_credentials, effective_env.
  set (env := os_environ w ∪ dotenv_file i).
  autounfold with py. run. fold env.
  destruct (env !! "GROQ_API_KEY") as [g|] eqn:Hg; [|done].
  run. rewrite (insert_id env _ _ Hg).
  destruct (env !! "GOOGLE_API_KEY") as [k|] eqn:Hk; [|done].
  run. rewrite (insert_id env _ _ Hk), Hg. run.
  destruct (str_truthy g); run; [|done].
  rewrite Hk. run.
  destruct (str_truthy k); done.
Qed.

#[local] Hint Unfold set_load_knowledge_base get_chat_history set_chat_history
  chat_history_append agent_run : py.

(** ** The input section *)

Lemma input_section_spec i w :
  input_section i w =
    (Ok (pdf_url_widget i, uploaded_pdf_widget i, website_url_widget i),
     after_click i w, input_events).
Proof.
  unfold input_section, after_click. autounfold with py. run.
  destruct (load_button_clicked i); run; reflexivity.
Qed.

(** ** The builders and the aggregator *)

Lemma create_combined_knowledge_base_spec p u s i w :
  ∃ r t,
    create_combined_knowledge_base p u s i w = (Ok r, w, t)
    ∧ is_Some_b r = negb (all_empty p u s)
    ∧ Forall (λ e, is_temp_write e = true) t.
Proof.
  unfold create_combined_knowledge_base, create_local_pdf_knowledge_base, all_empty.
  destruct (str_truthy p), u as [f|], (str_truthy s); run;
    (eexists _, _; split; [reflexivity|]; split; [reflexivity|]);
    repeat constructor.
Qed.

(** ** The memoised load *)

Lemma load_knowledge_base_hit p u s i w v :
  resource_cache w = Some v →
  load_knowledge_base p u s i w = (Ok v, w, []).
Proof.
  intros Hc. unfold load_knowledge_base, st_cache_resource. run.
  rewrite Hc. reflexivity.
Qed.

Lemma load_knowledge_base_miss p u s i w :
  resource_cache w = None →
  ∃ r t,
    load_knowledge_base p u s i w =
      (Ok r, set_cache (Some r) w,
       CacheMiss "load_knowledge_base" :: t ++ load_events r)
    ∧ is_Some_b r = negb (all_empty p u s)
    ∧ Forall (λ e, is_temp_write e = true) t.
Proof.
  intros Hc. unfold load_knowledge_base, st_cache_resource. run.
  rewrite Hc. run.
  destruct (create_combined_knowledge_base_spec p u s i w) as (r & t & Hr & Hs & Ht).
  exists r, t. split; [|done].
  rewrite bind_prefix, Hr. destruct r as [kb|]; run; cbn; by rewrite ?app_nil_r.
Qed.

(** ** The load section *)

Lemma load_section_not_requested p u s i w :
  load_requested (session_state w) = false →
  load_section p u s i w = (Ok None, w, []).
Proof. intros Hf. unfold load_section. run. by rewrite Hf. Qed.

Lemma load_section_hit p u s i w v :
  load_requested (session_state w) = true →
  resource_cache w = Some v →
  load_section p u s i w = (Ok v, w, [banner v]).
Proof.
  intros Hf Hc. unfold load_section. run. rewrite Hf.
  rewrite bind_prefix, (load_knowledge_base_hit _ _ _ _ _ _ Hc).
  destruct v; run; reflexivity.
Qed.

Lemma load_section_miss p u s i w :
  load_requested (session_state w) = true →
  resource_cache w = None →
  ∃ r t,
    load_section p u s i w =
      (Ok r, set_cache (Some r) w,
       CacheMiss "load_knowledge_base" :: t ++ load_events r ++ [banner r])
    ∧ is_Some_b r = negb (all_empty p u s)
    ∧ Forall (λ e, is_temp_write e = true) t.
Proof.
  intros Hf Hc. unfold load_section. run. rewrite Hf.
  destruct (load_knowledge_base_miss p u s i w Hc) as (r & t & Hr & Hs & Ht).
  exists r, t. split; [|done].
  rewrite bind_prefix, Hr.
  destruct r; run; cbn; by rewrite <-?(assoc_L (++)).
Qed.

(** ** The script up to the load section *)

Lemma knowledge_base_phase_ok i w :
  credentials_ok (effective_env i w) = true →
  knowledge_base_phase i w =
    prefix_events input_events
      (load_section (pdf_url_widget i) (uploaded_pdf_widget i) (website_url_widget i)
         i (after_inputs i w)).
Proof.
  unfold credentials_ok, credential_set, knowledge_base_phase. intros Hc.
  rewrite bind_prefix, check_credentials_spec. cbv zeta.
  destruct (effective_env i w !! "GROQ_API_KEY") as [g|]; [|done].
  destruct (effective_env i w !! "GOOGLE_API_KEY") as [k|];
    [|by rewrite andb_false_r in Hc].
  rewrite Hc. rewrite prefix_events_nil, bind_prefix, input_section_spec.
  reflexivity.
Qed.

Lemma knowledge_base_phase_halt i w :
  credentials_ok (effective_env i w) = false →
  ∃ e t,
    knowledge_base_phase i w = (Raise e, set_environ (effective_env i w) w, t)
    ∧ (t = [] ∨ t = [StError missing_keys_msg]).
Proof.
  unfold credentials_ok, credential_set, knowledge_base_phase. intros Hc.
  rewrite bind_prefix, check_credentials_spec. cbv zeta.
  destruct (effective_env i w !! "GROQ_API_KEY") as [g|]; [|by eauto].
  destruct (effective_env i w !! "GOOGLE_API_KEY") as [k|]; [|by eauto].
  rewrite Hc. eauto.
Qed.

(** ** The chat section *)

Lemma chat_section_skip knowledge_base i w :
  str_truthy (question_widget i) = false ∨ knowledge_base = None →
  chat_section knowledge_base i w =
    (Ok tt, with_history (transcript_of w) w, chat_widgets).
Proof.
  intros Hskip. unfold chat_section. autounfold with py. run.
  destruct w as [env cache [flag [h|]]]; run;
    destruct Hskip as [-> | ->]; try destruct (str_truthy _); try reflexivity;
    destruct knowledge_base; reflexivity.
Qed.

Lemma chat_section_returns kb r i w :
  str_truthy (question_widget i) = true →
  assistant_run i (new_agent kb) (question_widget i) = Returns r →
  chat_section (Some kb) i w =
    (Ok tt,
     with_history
       (transcript_of w ++
          [("You", question_widget i); ("Assistant", clean_response r)]) w,
     chat_widgets ++ agent_events kb (question_widget i)).
Proof.
  intros Hq Hr. unfold chat_section. autounfold with py. run.
  destruct w as [env cache [flag [h|]]]; run; rewrite Hq; run;
    rewrite try_except_run; run; rewrite Hr; run;
    unfold with_history, transcript_of; run; cbn [default];
    by rewrite <-?(assoc_L (++)).
Qed.

Lemma chat_section_raises kb e i w :
  str_truthy (question_widget i) = true →
  assistant_run i (new_agent kb) (question_widget i) = Raises e →
  chat_section (Some kb) i w =
    match chat_handlers e with
    | Some h =>
        prefix_events (chat_widgets ++ agent_events kb (question_widget i))
          (h i (with_history (transcript_of w) w))
    | None =>
        (Raise e, with_history (transcript_of w) w,
         chat_widgets ++ agent_events kb (question_widget i))
    end.
Proof.
  intros Hq Hr. unfold chat_section. autounfold with py. run.
  destruct w as [env cache [flag [h|]]]; run; rewrite Hq; run;
    rewrite try_except_run; run; rewrite Hr; run;
    destruct (chat_handlers e) as [hd|]; run; reflexivity.
Qed.

(** ** Display *)

Lemma for_each_display h i w :
  for_each h display_entry i w = (Ok tt, w, display_events h).
Proof.
  induction h as [|[speaker text] h IH]; [done|].
  cbn [for_each display_events map fst snd]. rewrite bind_prefix.
  unfold display_entry at 1. autounfold with py.
  destruct (String.eqb speaker "You"); cbn; by rewrite IH.
Qed.

Lemma display_section_spec h i w :
  chat_history (session_state w) = Some h →
  display_section i w = (Ok tt, w, display_events h ++ [StMarkdown CustomCss]).
Proof.
  intros Hh. unfold display_section. autounfold with py. run. rewrite Hh. run.
  rewrite bind_prefix, for_each_display. reflexivity.
Qed.

(** ** Outcomes of the script up to the load section *)

Lemma load_requested_after_inputs i w :
  load_requested (session_state (after_inputs i w)) =
    load_button_clicked i || load_requested (session_state w).
Proof. unfold after_inputs, after_click. by destruct (load_button_clicked i). Qed.

Lemma chat_history_after_inputs i w :
  chat_history (session_state (after_inputs i w)) = chat_history (session_state w).
Proof. unfold after_inputs, after_click. by destruct (load_button_clicked i). Qed.

Lemma resource_cache_after_inputs i w :
  resource_cache (after_inputs i w) = resource_cache w.
Proof. unfold after_inputs, after_click. by destruct (load_button_clicked i). Qed.

Lemma os_environ_after_inputs i w :
  os_environ (after_inputs i w) = effective_env i w.
Proof. unfold after_inputs, after_click. by destruct (load_button_clicked i). Qed.

Lemma knowledge_base_phase_outcome i w : phase_outcome i w (knowledge_base_phase i w).
Proof.
  destruct (credentials_ok (effective_env i w)) eqn:Hc.
  - rewrite (knowledge_base_phase_ok _ _ Hc).
    pose proof (load_requested_after_inputs i w) as Hreq.
    pose proof (resource_cache_after_inputs i w) as Hcache.
    destruct (load_requested (session_state (after_inputs i w))) eqn:Hf.
    + destruct (resource_cache (after_inputs i w)) as [v|] eqn:Hv.
      * rewrite (load_section_hit _ _ _ _ _ _ Hf Hv). by apply phase_hit.
      * destruct (load_section_miss (pdf_url_widget i) (uploaded_pdf_widget i)
                    (website_url_widget i) i _ Hf Hv) as (r & t & -> & Hs & Ht).
        by apply phase_miss.
    + rewrite (load_section_not_requested _ _ _ _ _ Hf). by apply phase_idle.
  - destruct (knowledge_base_phase_halt _ _ Hc) as (e & t & -> & Ht).
    by apply phase_halt.
Qed.

(** What the phase leaves alone. *)
Lemma phase_outcome_frame i w r w1 t1 :
  phase_outcome i w (r, w1, t1) →
  chat_history (session_state w1) = chat_history (session_state w)
  ∧ (load_requested (session_state w) = true → load_requested (session_state w1) = true)
  ∧ (∀ v, resource_cache w = Some v → resource_cache w1 = Some v).
Proof.
  inversion 1; subst; cbn [session_state resource_cache set_environ set_cache];
    rewrite ?chat_history_after_inputs, ?load_requested_after_inputs,
      ?resource_cache_after_inputs; split_and!; try done.
  all: try (intros ->; by rewrite orb_true_r).
  intros; congruence.
Qed.

(** ** The whole pass, by what the chat section does *)

Lemma app_run i w :
  app i w =
    match knowledge_base_phase i w with
    | (Ok kb, w1, t1) =>
        prefix_events t1
          (match chat_section kb i w1 with
           | (Ok _, w2, t2) =>
               prefix_events t2
                 (match display_section i w2 with
                  | (Ok _, w3, t3) => (Ok kb, w3, t3)
                  | (Raise e, w3, t3) => (Raise e, w3, t3)
                  end)
           | (Raise e, w2, t2) => (Raise e, w2, t2)
           end)
    | (Raise e, w1, t1) => (Raise e, w1, t1)
    end.
Proof.
  unfold app. rewrite bind_prefix.
  destruct (knowledge_base_phase i w) as [[[kb|e] w1] t1]; [|done].
  f_equal. rewrite bind_prefix.
  destruct (chat_section kb i w1) as [[[[]|e] w2] t2]; [|done].
  f_equal. rewrite bind_prefix.
  destruct (display_section i w2) as [[[[]|e] w3] t3]; [|done].
  run. by rewrite app_nil_r.
Qed.

Lemma display_with_history h i w :
  display_section i (with_history h w) = (Ok tt, with_history h w, display_tail h).
Proof. by apply display_section_spec. Qed.

Lemma app_skip i w kb w1 t1 :
  knowledge_base_phase i w = (Ok kb, w1, t1) →
  str_truthy (question_widget i) = false ∨ kb = None →
  app i w =
    (Ok kb, with_history (transcript_of w1) w1,
     t1 ++ chat_widgets ++ display_tail (transcript_of w1)).
Proof.
  intros Hp Hskip.
  rewrite app_run, Hp, (chat_section_skip _ _ _ Hskip), display_with_history.
  reflexivity.
Qed.

Lemma app_returns i w kb w1 t1 r :
  knowledge_base_phase i w = (Ok (Some kb), w1, t1) →
  str_truthy (question_widget i) = true →
  assistant_run i (new_agent kb) (question_widget i) = Returns r →
  let h := transcript_of w1 ++
             [("You", question_widget i); ("Assistant", clean_response r)] in
  app i w =
    (Ok (Some kb), with_history h w1,
     t1 ++ (chat_widgets ++ agent_events kb (question_widget i)) ++ display_tail h).
Proof.
  intros Hp Hq Hr h.
  rewrite app_run, Hp, (chat_section_returns _ _ _ _ Hq Hr), display_with_history.
  reflexivity.
Qed.

Lemma app_raises_handled i w kb w1 t1 e msg :
  knowledge_base_phase i w = (Ok (Some kb), w1, t1) →
  str_truthy (question_widget i) = true →
  assistant_run i (new_agent kb) (question_widget i) = Raises e →
  handled_by e msg →
  let h := transcript_of w1 in
  app i w =
    (Ok (Some kb), with_history h w1,
     t1 ++ (chat_widgets ++ agent_events kb (question_widget i) ++ [StError msg])
        ++ display_tail h).
Proof.
  intros Hp Hq Hr Hh h.
  rewrite app_run, Hp, (chat_section_raises _ _ _ _ Hq Hr).
  destruct (Hh i (with_history (transcript_of w1) w1)) as (hd & -> & ->).
  cbn [prefix_events]. rewrite display_with_history. reflexivity.
Qed.

Lemma app_raises_unhandled i w kb w1 t1 e :
  knowledge_base_phase i w = (Ok (Some kb), w1, t1) →
  str_truthy (question_widget i) = true →
  assistant_run i (new_agent kb) (question_widget i) = Raises e →
  chat_handlers e = None →
  app i w =
    (Raise e, with_history (transcript_of w1) w1,
     t1 ++ chat_widgets ++ agent_events kb (question_widget i)).
Proof.
  intros Hp Hq Hr Hh.
  rewrite app_run, Hp, (chat_section_raises _ _ _ _ Hq Hr), Hh. reflexivity.
Qed.

Lemma app_halt i w e w1 t1 :
  knowledge_base_phase i w = (Raise e, w1, t1) →
  app i w = (Raise e, w1, t1).
Proof. intros Hp. by rewrite app_run, Hp. Qed.

(** ** Selecting events *)

Lemma filter_none (p q : event → bool) (t : list event) :
  Forall (λ e, q e = true) t →
  (∀ e, q e = true → p e = false) →
  List.filter p t = [].
Proof.
  intros Ht Hpq. induction Ht as [|e t He _ IH]; [done|].
  cbn. by rewrite (Hpq e He).
Qed.

Lemma display_events_markdown h : Forall (λ e, is_markdown e = true) (display_events h).
Proof. induction h; by constructor. Qed.

Lemma display_tail_markdown h : Forall (λ e, is_markdown e = true) (display_tail h).
Proof.
  apply Forall_app. split; [apply display_events_markdown|by repeat constructor].
Qed.

Lemma display_tail_chat h : Forall (λ e, is_chat_event e = true) (display_tail h).
Proof.
  eapply Forall_impl; [apply display_tail_markdown|]. by intros [].
Qed.

Lemma phase_events_load i w kb w1 t1 :
  phase_outcome i w (Ok kb, w1, t1) →
  Forall (λ e, is_load_event e = true) t1.
Proof.
  inversion 1; subst;
    repeat (constructor; [first [done | by destruct kb]|]); try by constructor.
  rewrite !Forall_app. split_and!.
  - eapply Forall_impl; [eassumption|]. by intros [].
  - destruct kb; by repeat constructor.
  - destruct kb; by repeat constructor.
Qed.

(** ** Which clause catches which exception *)

Lemma handled_too_large e :
  exn_class e = APIStatusError →
  str_contains too_large_marker (exn_str e) = true →
  handled_by e too_large_msg.
Proof.
  intros Hc Hs i w. unfold chat_handlers, isinstance_APIStatusError.
  rewrite Hc, Hs. eauto.
Qed.

Lemma handled_api_error e :
  exn_class e = APIStatusError →
  str_contains too_large_marker (exn_str e) = false →
  handled_by e (String.append "An error occurred: " (exn_str e)).
Proof.
  intros Hc Hs i w. unfold chat_handlers, isinstance_APIStatusError.
  rewrite Hc, Hs. eauto.
Qed.

Lemma handled_unexpected e :
  exn_class e ≠ APIStatusError →
  isinstance_Exception e = true →
  handled_by e (String.append "An unexpected error occurred: " (exn_str e)).
Proof.
  intros Hc He i w. unfold chat_handlers, isinstance_APIStatusError.
  rewrite He. destruct (exn_class e); try done; eauto.
Qed.

Lemma unhandled_base e :
  isinstance_Exception e = false → chat_handlers e = None.
Proof.
  unfold chat_handlers, isinstance_APIStatusError, isinstance_Exception.
  by destruct (exn_class e).
Qed.

Lemma chat_handlers_cases e :
  (∃ msg, handled_by e msg) ∨ chat_handlers e = None.
Proof.
  destruct (isinstance_Exception e) eqn:He; [left|right; by apply unhandled_base].
  destruct (decide (exn_class e = APIStatusError)) as [Hc|Hc].
  - destruct (str_contains too_large_marker (exn_str e)) eqn:Hs;
      eauto using handled_too_large, handled_api_error.
  - eauto using handled_unexpected.
Qed.

(** ** Every pass, in one statement *)

Lemma app_cases i w :
  match knowledge_base_phase i w with
  | (Raise e, w1, t1) => app i w = (Raise e, w1, t1)
  | (Ok kb, w1, t1) =>
      ∃ r h t2,
        app i w = (r, with_history h w1, t1 ++ t2)
        ∧ turn_added (transcript_of w1) h
        ∧ Forall (λ e, is_chat_event e = true) t2
        ∧ (r = Ok kb ∧ (∃ t0, t2 = t0 ++ display_tail h) ∨ ∃ e, r = Raise e)
  end.
Proof.
  destruct (knowledge_base_phase i w) as [[[kb|e] w1] t1] eqn:Hp;
    [|by apply app_halt].
  destruct (str_truthy (question_widget i)) eqn:Hq; [destruct kb as [kb|]|].
  - destruct (assistant_run i (new_agent kb) (question_widget i)) as [r|e] eqn:Hr.
    + eexists _, _, _. split; [by apply (app_returns _ _ _ _ _ _ Hp Hq Hr)|].
      split_and!; [right; eauto| |left; eauto].
      apply Forall_app. split; [by repeat constructor|apply display_tail_chat].
    + destruct (chat_handlers_cases e) as [[msg Hh]|Hh].
      * eexists _, _, _. split; [by apply (app_raises_handled _ _ _ _ _ _ _ Hp Hq Hr Hh)|].
        split_and!; [by left| |left; eauto].
        apply Forall_app. split; [by repeat constructor|apply display_tail_chat].
      * eexists _, _, _. split; [by apply (app_raises_unhandled _ _ _ _ _ _ Hp Hq Hr Hh)|].
        split_and!; [by left|by repeat constructor|right; eauto].
  - eexists _, _, _. split; [apply (app_skip _ _ _ _ _ Hp); by right|].
    split_and!; [by left| |left; eauto].
    apply Forall_app. split; [by repeat constructor|apply display_tail_chat].
  - eexists _, _, _. split; [apply (app_skip _ _ _ _ _ Hp); by left|].
    split_and!; [by left| |left; eauto].
    apply Forall_app. split; [by repeat constructor|apply display_tail_chat].
Qed.

(** * The claims *)

(** ** Credentials (lines 19-27) *)

Lemma knowledge_base_phase_missing i w :
  effective_env i w !! "GROQ_API_KEY" = None
  ∨ effective_env i w !! "GOOGLE_API_KEY" = None →
  knowledge_base_phase i w =
    (Raise (Exn TypeError "str expected, not NoneType"),
     set_environ (effective_env i w) w, []).
Proof.
  intros Hmiss. unfold knowledge_base_phase.
  rewrite bind_prefix, check_credentials_spec. cbv zeta.
  destruct (effective_env i w !! "GROQ_API_KEY") as [g|]; [|done].
  destruct (effective_env i w !! "GOOGLE_API_KEY") as [k|]; [|done].
  by destruct Hmiss.
Qed.

(** An empty credential is reported and the pass stops before any
    widget. *)
Lemma empty_credential_stops i w g k :
  effective_env i w !! "GROQ_API_KEY" = Some g →
  effective_env i w !! "GOOGLE_API_KEY" = Some k →
  g = "" ∨ k = "" →
  app i w =
    (Raise (Exn StopException ""), set_environ (effective_env i w) w,
     [StError missing_keys_msg]).
Proof.
  intros Hg Hk Hempty. apply app_halt. unfold knowledge_base_phase.
  rewrite bind_prefix, check_credentials_spec. cbv zeta. rewrite Hg, Hk.
  destruct Hempty as [-> | ->]; [done|]. by rewrite andb_false_r.
Qed.

(** With both credentials set the pass gets past the check: the input
    widgets are shown. *)
Lemma credentials_present_proceed i w :
  credentials_ok (effective_env i w) = true →
  ∃ r w' t, app i w = (r, w', input_events ++ t).
Proof.
  intros Hc. pose proof (app_cases i w) as Happ.
  pose proof (knowledge_base_phase_outcome i w) as Hout.
  destruct (knowledge_base_phase i w) as [[[kb|e] w1] t1].
  - destruct Happ as (r & h & t2 & -> & _).
    inversion Hout; subst; eexists _, _, _; f_equal;
      rewrite <-?(assoc_L (++)); reflexivity.
  - inversion Hout; congruence.
Qed.

(** C1 (defect in the code): a credential that is missing from the
    environment makes [os.environ[k] = os.getenv(k)] raise [TypeError]; the
    pass ends there, and the "Missing API Keys" message of line 26 is not
    shown. *)
Theorem missing_credential_raises_TypeError i w :
  effective_env i w !! "GROQ_API_KEY" = None
  ∨ effective_env i w !! "GOOGLE_API_KEY" = None →
  app i w =
    (Raise (Exn TypeError "str expected, not NoneType"),
     set_environ (effective_env i w) w, []).
Proof. intros Hmiss. by apply app_halt, knowledge_base_phase_missing. Qed.

Lemma missing_credential_raises_TypeError_witness :
  let i := example_inputs "" "" false (example_answer "") in
  let w := new_session example_env_no_groq None in
  effective_env i w !! "GROQ_API_KEY" = None
  ∧ app i w =
      (Raise (Exn TypeError "str expected, not NoneType"),
       set_environ (effective_env i w) w, []).
Proof.
  intros i w.
  assert (effective_env i w !! "GROQ_API_KEY" = None) as Hmiss by reflexivity.
  split; [exact Hmiss|].
  exact (missing_credential_raises_TypeError i w (or_introl Hmiss)).
Defined.

(** ** The chat section (lines 156-196) *)

Lemma phase_returns i w kb w1 t1 :
  knowledge_base_phase i w = (Ok kb, w1, t1) →
  transcript_of w1 = transcript_of w
  ∧ Forall (λ e, is_load_event e = true) t1.
Proof.
  intros Hp. pose proof (knowledge_base_phase_outcome i w) as Hout.
  rewrite Hp in Hout. split; [|by eapply phase_events_load].
  unfold transcript_of. by destruct (phase_outcome_frame _ _ _ _ _ Hout) as (-> & _).
Qed.

(** C2, as the code has it: a submitted question whose agent call returns
    appends exactly [("You", question)] and then [("Assistant", text)],
    where [text] is the [content] attribute of the response when it has one
    and its string conversion otherwise.  (Nothing makes [text]
    non-empty.) *)
Theorem question_appends_two_entries i w kb w1 t1 r :
  knowledge_base_phase i w = (Ok (Some kb), w1, t1) →
  str_truthy (question_widget i) = true →
  assistant_run i (new_agent kb) (question_widget i) = Returns r →
  ∃ text w' t,
    app i w = (Ok (Some kb), w', t)
    ∧ chat_history (session_state w') =
        Some (transcript_of w ++ [("You", question_widget i); ("Assistant", text)])
    ∧ (∀ c, content r = Some c → text = c)
    ∧ (content r = None → text = response_str r).
Proof.
  intros Hp Hq Hr. destruct (phase_returns _ _ _ _ _ Hp) as [Htr _].
  eexists (clean_response r), _, _.
  split; [by apply (app_returns _ _ _ _ _ _ Hp Hq Hr)|].
  cbn. rewrite Htr. unfold clean_response.
  split_and!; [done|by intros c ->|by intros ->].
Qed.

Lemma question_appends_two_entries_witness :
  let i := example_inputs "https://example.com/document.pdf"
             "What is machine learning?" true (example_answer "A field of AI.") in
  let w := new_session example_env None in
  let r := example_response "A field of AI." in
  ∃ kb w1 t1,
    knowledge_base_phase i w = (Ok (Some kb), w1, t1)
    ∧ str_truthy (question_widget i) = true
    ∧ assistant_run i (new_agent kb) (question_widget i) = Returns r
    ∧ ∃ text w' t,
        app i w = (Ok (Some kb), w', t)
        ∧ chat_history (session_state w') =
            Some (transcript_of w ++ [("You", question_widget i); ("Assistant", text)])
        ∧ (∀ c, content r = Some c → text = c)
        ∧ (content r = None → text = response_str r).
Proof.
  intros i w r. eexists _, _, _.
  assert (knowledge_base_phase i w = _) as Hp by (vm_compute; reflexivity).
  split; [exact Hp|]. split; [reflexivity|]. split; [reflexivity|].
  exact (question_appends_two_entries i w _ _ _ r Hp eq_refl eq_refl).
Defined.

(** C2 as stated fails: the agent may answer with an empty [content], and
    the entry [("Assistant", "")] is appended all the same. *)
Lemma assistant_entry_can_be_empty :
  ¬ (∀ i w kb w1 t1 r,
       knowledge_base_phase i w = (Ok (Some kb), w1, t1) →
       str_truthy (question_widget i) = true →
       assistant_run i (new_agent kb) (question_widget i) = Returns r →
       ∃ text w' t,
         text ≠ ""
         ∧ app i w = (Ok (Some kb), w', t)
         ∧ chat_history (session_state w') =
             Some (transcript_of w ++
                     [("You", question_widget i); ("Assistant", text)])).
Proof.
  intros Hclaim.
  pose (i := example_inputs "https://example.com/document.pdf"
               "What is machine learning?" true (example_answer "")).
  pose (w := new_session example_env None).
  destruct (knowledge_base_phase i w) as [[[[kb|]|e] w1] t1] eqn:Hp;
    try (vm_compute in Hp; discriminate).
  destruct (Hclaim i w kb w1 t1 (example_response "") Hp eq_refl eq_refl)
    as (text & w' & t & Hne & Happ & Hh).
  rewrite (app_returns i w kb w1 t1 (example_response "") Hp eq_refl eq_refl) in Happ.
  injection Happ as <- _.
  destruct (phase_returns _ _ _ _ _ Hp) as [Htr _].
  cbn in Hh. rewrite Htr in Hh. cbn in Hh. congruence.
Qed.

Lemma handled_failure i w kb w1 t1 e msg :
  knowledge_base_phase i w = (Ok (Some kb), w1, t1) →
  str_truthy (question_widget i) = true →
  assistant_run i (new_agent kb) (question_widget i) = Raises e →
  handled_by e msg →
  ∃ w' t,
    app i w = (Ok (Some kb), w', t)
    ∧ chat_history (session_state w') = Some (transcript_of w)
    ∧ List.filter is_error t = [StError msg].
Proof.
  intros Hp Hq Hr Hh. destruct (phase_returns _ _ _ _ _ Hp) as [Htr Ht1].
  eexists _, _. split; [by apply (app_raises_handled _ _ _ _ _ _ _ Hp Hq Hr Hh)|].
  split; [by rewrite <-Htr|].
  unfold display_tail. rewrite List.filter_app.
  rewrite (filter_none is_error is_load_event t1) by (done || by intros []).
  simpl. rewrite List.filter_app.
  by rewrite (filter_none is_error is_markdown (display_events _))
    by (apply display_events_markdown || by intros []).
Qed.

Lemma unhandled_failure i w kb w1 t1 e :
  knowledge_base_phase i w = (Ok (Some kb), w1, t1) →
  str_truthy (question_widget i) = true →
  assistant_run i (new_agent kb) (question_widget i) = Raises e →
  chat_handlers e = None →
  ∃ w' t,
    app i w = (Raise e, w', t)
    ∧ chat_history (session_state w') = Some (transcript_of w)
    ∧ List.filter is_error t = [].
Proof.
  intros Hp Hq Hr Hh. destruct (phase_returns _ _ _ _ _ Hp) as [Htr Ht1].
  eexists _, _. split; [by apply (app_raises_unhandled _ _ _ _ _ _ Hp Hq Hr Hh)|].
  split; [by rewrite <-Htr|].
  rewrite List.filter_app.
  by rewrite (filter_none is_error is_load_event t1) by (done || by intros []).
Qed.

(** C3, as the code has it.  When the agent call raises, the transcript is
    left as it was.  An [APIStatusError] whose text contains the marker gets
    the "too large" message, any other [APIStatusError] the message "An
    error occurred: ...", any other exception deriving from [Exception] the
    message "An unexpected error occurred: ..."; an exception outside
    [Exception] is not caught and ends the pass without a message. *)
Theorem agent_failure_leaves_transcript i w kb w1 t1 e :
  knowledge_base_phase i w = (Ok (Some kb), w1, t1) →
  str_truthy (question_widget i) = true →
  assistant_run i (new_agent kb) (question_widget i) = Raises e →
  ∃ r w' t,
    app i w = (r, w', t)
    ∧ chat_history (session_state w') = Some (transcript_of w)
    ∧ (exn_class e = APIStatusError →
       str_contains too_large_marker (exn_str e) = true →
       r = Ok (Some kb) ∧ List.filter is_error t = [StError too_large_msg])
    ∧ (exn_class e = APIStatusError →
       str_contains too_large_marker (exn_str e) = false →
       r = Ok (Some kb)
       ∧ List.filter is_error t =
           [StError (String.append "An error occurred: " (exn_str e))])
    ∧ (exn_class e ≠ APIStatusError →
       isinstance_Exception e = true →
       r = Ok (Some kb)
       ∧ List.filter is_error t =
           [StError (String.append "An unexpected error occurred: " (exn_str e))])
    ∧ (isinstance_Exception e = false →
       r = Raise e ∧ List.filter is_error t = []).
Proof.
  intros Hp Hq Hr.
  destruct (app i w) as [[r w'] t] eqn:Happ. exists r, w', t. split; [done|].
  assert (∀ msg, handled_by e msg →
            r = Ok (Some kb)
            ∧ chat_history (session_state w') = Some (transcript_of w)
            ∧ List.filter is_error t = [StError msg]) as Hhandled.
  { intros msg Hh.
    destruct (handled_failure _ _ _ _ _ _ _ Hp Hq Hr Hh) as (? & ? & Happ' & ? & ?).
    rewrite Happ in Happ'. by injection Happ' as -> -> ->. }
  assert (chat_handlers e = None →
            r = Raise e
            ∧ chat_history (session_state w') = Some (transcript_of w)
            ∧ List.filter is_error t = []) as Hunhandled.
  { intros Hnone.
    destruct (unhandled_failure _ _ _ _ _ _ Hp Hq Hr Hnone) as (? & ? & Happ' & ? & ?).
    rewrite Happ in Happ'. by injection Happ' as -> -> ->. }
  split_and!.
  - destruct (chat_handlers_cases e) as [[msg Hh]|Hnone].
    + by destruct (Hhandled msg Hh) as (_ & ? & _).
    + by destruct (Hunhandled Hnone) as (_ & ? & _).
  - intros Hc Hs. by destruct (Hhandled _ (handled_too_large e Hc Hs)) as (? & _ & ?).
  - intros Hc Hs. by destruct (Hhandled _ (handled_api_error e Hc Hs)) as (? & _ & ?).
  - intros Hc He. by destruct (Hhandled _ (handled_unexpected e Hc He)) as (? & _ & ?).
  - intros He. by destruct (Hunhandled (unhandled_base e He)) as (? & _ & ?).
Qed.

Lemma agent_failure_leaves_transcript_witness :
  let e := Exn APIStatusError "Error code: 413 - Request too large for model" in
  let i := example_inputs "https://example.com/document.pdf"
             "What is machine learning?" true (Raises e) in
  let w := new_session example_env None in
  ∃ kb w1 t1,
    knowledge_base_phase i w = (Ok (Some kb), w1, t1)
    ∧ str_truthy (question_widget i) = true
    ∧ assistant_run i (new_agent kb) (question_widget i) = Raises e
    ∧ ∃ r w' t,
        app i w = (r, w', t)
        ∧ chat_history (session_state w') = Some (transcript_of w)
        ∧ r = Ok (Some kb)
        ∧ List.filter is_error t = [StError too_large_msg].
Proof.
  intros e i w. eexists _, _, _.
  assert (knowledge_base_phase i w = _) as Hp by (vm_compute; reflexivity).
  split; [exact Hp|]. split; [reflexivity|]. split; [reflexivity|].
  destruct (agent_failure_leaves_transcript i w _ _ _ e Hp eq_refl eq_refl)
    as (r & w' & t & Happ & Hh & Hlarge & _).
  exists r, w', t. split; [exact Happ|]. split; [exact Hh|].
  exact (Hlarge eq_refl eq_refl).
Defined.

(** C3 as stated fails: an exception that is not an [APIStatusError] gets
    the "unexpected error" message even when its text contains the
    marker. *)
Lemma marker_outside_APIStatusError_not_targeted :
  ¬ (∀ i w kb w1 t1 e,
       knowledge_base_phase i w = (Ok (Some kb), w1, t1) →
       str_truthy (question_widget i) = true →
       assistant_run i (new_agent kb) (question_widget i) = Raises e →
       str_contains too_large_marker (exn_str e) = true →
       ∃ r w' t,
         app i w = (r, w', t)
         ∧ chat_history (session_state w') = Some (transcript_of w)
         ∧ List.filter is_error t = [StError too_large_msg]).
Proof.
  intros Hclaim.
  pose (e := Exn OtherException "Request too large").
  pose (i := example_inputs "https://example.com/document.pdf"
               "What is machine learning?" true (Raises e)).
  pose (w := new_session example_env None).
  destruct (knowledge_base_phase i w) as [[[[kb|]|e'] w1] t1] eqn:Hp;
    try (vm_compute in Hp; discriminate).
  destruct (Hclaim i w kb w1 t1 e Hp eq_refl eq_refl eq_refl)
    as (r & w' & t & Happ & _ & Herr).
  assert (handled_by e "An unexpected error occurred: Request too large") as Hh
    by (by apply (handled_unexpected e)).
  destruct (handled_failure i w kb w1 t1 e _ Hp eq_refl eq_refl Hh)
    as (w'' & t' & Happ' & _ & Herr').
  rewrite Happ in Happ'. injection Happ' as _ _ ->.
  rewrite Herr in Herr'. discriminate.
Qed.

(** ** The builders (lines 69-112) *)

(** C4: without a locator each builder returns [None] (and raises
    nothing); with one it returns a handle whose vector store is the
    builder's own collection, and the three collections differ. *)
Theorem builders_return_handle_iff_populated
    (pdf_url website_url : string) (uploaded_file : UploadedFile) i w :
  pdf_url ≠ "" →
  website_url ≠ "" →
  create_pdf_url_knowledge_base "" = None
  ∧ create_local_pdf_knowledge_base None i w = (Ok None, w, [])
  ∧ create_website_knowledge_base "" = None
  ∧ ∃ kb1 kb2 kb3 t,
      create_pdf_url_knowledge_base pdf_url = Some kb1
      ∧ create_local_pdf_knowledge_base (Some uploaded_file) i w = (Ok (Some kb2), w, t)
      ∧ create_website_knowledge_base website_url = Some kb3
      ∧ collection (vector_db_of kb1) = "pdf_url"
      ∧ collection (vector_db_of kb2) = "pdf_documents"
      ∧ collection (vector_db_of kb3) = "website_documents"
      ∧ NoDup [collection (vector_db_of kb1); collection (vector_db_of kb2);
               collection (vector_db_of kb3)].
Proof.
  intros Hp Hs. split_and!; try reflexivity.
  unfold create_pdf_url_knowledge_base, create_website_knowledge_base,
    create_local_pdf_knowledge_base.
  destruct pdf_url; [done|]. destruct website_url; [done|]. run.
  eexists _, _, _, _. split_and!; try reflexivity.
  cbn. by apply (bool_decide_unpack _).
Qed.

Lemma builders_return_handle_iff_populated_witness :
  let i := example_inputs "" "" false (example_answer "") in
  let w := new_session example_env None in
  "https://example.com/document.pdf" ≠ ""
  ∧ "https://example.com" ≠ ""
  ∧ ∃ kb1 kb2 kb3 t,
      create_pdf_url_knowledge_base "https://example.com/document.pdf" = Some kb1
      ∧ create_local_pdf_knowledge_base
          (Some {| upload_name := "notes.pdf"; upload_data := [] |}) i w
        = (Ok (Some kb2), w, t)
      ∧ create_website_knowledge_base "https://example.com" = Some kb3
      ∧ collection (vector_db_of kb1) = "pdf_url"
      ∧ collection (vector_db_of kb2) = "pdf_documents"
      ∧ collection (vector_db_of kb3) = "website_documents"
      ∧ NoDup [collection (vector_db_of kb1); collection (vector_db_of kb2);
               collection (vector_db_of kb3)].
Proof.
  intros i w. split; [done|]. split; [done|].
  refine (proj2 (proj2 (proj2
    (builders_return_handle_iff_populated "https://example.com/document.pdf"
       "https://example.com" {| upload_name := "notes.pdf"; upload_data := [] |}
       i w _ _)))); done.
Defined.

(** ** No knowledge base, no agent (line 168) *)

(** C8: when the pass has no knowledge base, no agent is constructed or
    run and the transcript keeps its entries, whatever the question. *)
Theorem no_knowledge_base_no_agent i w w1 t1 :
  knowledge_base_phase i w = (Ok None, w1, t1) →
  ∃ w' t,
    app i w = (Ok None, w', t)
    ∧ chat_history (session_state w') = Some (transcript_of w)
    ∧ List.filter is_agent_event t = [].
Proof.
  intros Hp. destruct (phase_returns _ _ _ _ _ Hp) as [Htr Ht1].
  eexists _, _. split; [apply (app_skip _ _ _ _ _ Hp); by right|].
  split; [by rewrite <-Htr|].
  unfold display_tail. rewrite List.filter_app.
  rewrite (filter_none is_agent_event is_load_event t1) by (done || by intros []).
  simpl. rewrite List.filter_app.
  by rewrite (filter_none is_agent_event is_markdown (display_events _))
    by (apply display_events_markdown || by intros []).
Qed.

Lemma no_knowledge_base_no_agent_witness :
  let i := example_inputs "" "What is machine learning?" false
             (example_answer "A field of AI.") in
  let w := new_session example_env None in
  ∃ w1 t1,
    knowledge_base_phase i w = (Ok None, w1, t1)
    ∧ ∃ w' t,
        app i w = (Ok None, w', t)
        ∧ chat_history (session_state w') = Some (transcript_of w)
        ∧ List.filter is_agent_event t = [].
Proof.
  intros i w. eexists _, _.
  assert (knowledge_base_phase i w = _) as Hp by (vm_compute; reflexivity).
  split; [exact Hp|]. exact (no_knowledge_base_no_agent i w _ _ Hp).
Defined.

(** ** Loading (lines 114-154) *)

Lemma str_truthy_ne s : str_truthy s = true ↔ s ≠ "".
Proof. by destruct s. Qed.

Lemma all_empty_true p u s :
  all_empty p u s = true ↔ p = "" ∧ u = None ∧ s = "".
Proof.
  unfold all_empty. destruct p, u, s; cbn; (split; [try done|by intros (? & ? & ?)]).
Qed.

Lemma all_empty_false p u s :
  all_empty p u s = false ↔ p ≠ "" ∨ u ≠ None ∨ s ≠ "".
Proof.
  unfold all_empty. destruct p, u, s; cbn; split; intros H; try done;
    try (by left); try (by right; left); try (by right; right).
  by destruct H as [?|[?|?]].
Qed.

Lemma phase_on_miss i w :
  credentials_ok (effective_env i w) = true →
  load_button_clicked i || load_requested (session_state w) = true →
  resource_cache w = None →
  ∃ r t,
    knowledge_base_phase i w =
      (Ok r, set_cache (Some r) (after_inputs i w),
       input_events ++ CacheMiss "load_knowledge_base" :: t ++ load_events r ++ [banner r])
    ∧ is_Some_b r =
        negb (all_empty (pdf_url_widget i) (uploaded_pdf_widget i) (website_url_widget i))
    ∧ Forall (λ e, is_temp_write e = true) t.
Proof.
  intros Hc Hreq Hcache. pose proof (knowledge_base_phase_outcome i w) as Hout.
  destruct Hout; try congruence. eauto.
Qed.

Lemma phase_on_hit i w v :
  credentials_ok (effective_env i w) = true →
  load_button_clicked i || load_requested (session_state w) = true →
  resource_cache w = Some v →
  knowledge_base_phase i w = (Ok v, after_inputs i w, input_events ++ [banner v]).
Proof.
  intros Hc Hreq Hcache. pose proof (knowledge_base_phase_outcome i w) as Hout.
  destruct Hout; congruence.
Qed.

(** Events of the chat section and the display do not count for a kind of
    event that occurs only up to the load section. *)
Lemma app_select (p : event → bool) i w kb w1 t1 :
  knowledge_base_phase i w = (Ok kb, w1, t1) →
  (∀ e, is_chat_event e = true → p e = false) →
  List.filter p (app i w).2 = List.filter p t1.
Proof.
  intros Hp Hchat. pose proof (app_cases i w) as Happ. rewrite Hp in Happ.
  destruct Happ as (r & h & t2 & -> & _ & Ht2 & _). cbn [snd].
  by rewrite List.filter_app, (filter_none p is_chat_event t2), app_nil_r.
Qed.

Lemma miss_events_banner r t :
  Forall (λ e, is_temp_write e = true) t →
  List.filter is_banner
    (input_events ++ CacheMiss "load_knowledge_base" :: t ++ load_events r ++ [banner r])
  = [banner r].
Proof.
  intros Ht. simpl. rewrite List.filter_app.
  rewrite (filter_none is_banner is_temp_write t) by (done || by intros []).
  by destruct r.
Qed.

Lemma miss_events_kb_load r t :
  Forall (λ e, is_temp_write e = true) t →
  List.filter is_kb_load
    (input_events ++ CacheMiss "load_knowledge_base" :: t ++ load_events r ++ [banner r])
  = load_events r.
Proof.
  intros Ht. simpl. rewrite List.filter_app.
  rewrite (filter_none is_kb_load is_temp_write t) by (done || by intros []).
  by destruct r.
Qed.

(** C5, as the code has it: with the three inputs empty the aggregator
    returns [None]; when the load is requested and no non-null handle is
    memoised (nothing is memoised yet, or [None] is), the pass has no
    knowledge base, nothing is loaded and the warning is the banner
    shown. *)
Theorem no_sources_warning i w :
  credentials_ok (effective_env i w) = true →
  load_button_clicked i || load_requested (session_state w) = true →
  pdf_url_widget i = "" →
  uploaded_pdf_widget i = None →
  website_url_widget i = "" →
  (∀ kb, resource_cache w ≠ Some (Some kb)) →
  create_combined_knowledge_base (pdf_url_widget i) (uploaded_pdf_widget i)
    (website_url_widget i) i w = (Ok None, w, [])
  ∧ ∃ w' t,
      app i w = (Ok None, w', t)
      ∧ List.filter is_banner t = [StWarning warning_msg]
      ∧ List.filter is_kb_load t = [].
Proof.
  intros Hc Hreq Hp Hu Hs Hcache. split; [by rewrite Hp, Hu, Hs|].
  assert (∃ w1 t1,
            knowledge_base_phase i w = (Ok None, w1, t1)
            ∧ List.filter is_banner t1 = [StWarning warning_msg]
            ∧ List.filter is_kb_load t1 = []) as (w1 & t1 & Hphase & Hb1 & Hl1).
  { destruct (resource_cache w) as [[kb|]|] eqn:Hv.
    - by destruct (Hcache kb).
    - eexists _, _. split; [by apply (phase_on_hit i w None)|]. done.
    - destruct (phase_on_miss i w Hc Hreq Hv) as (r & t1 & Hphase & Hr & Ht1).
      rewrite (proj2 (all_empty_true _ _ _)) in Hr by done.
      destruct r as [kb|]; [done|].
      eexists _, _. split; [exact Hphase|].
      by rewrite miss_events_banner, miss_events_kb_load. }
  pose proof (app_skip _ _ _ _ _ Hphase (or_intror eq_refl)) as Happ.
  eexists _, _. split; [exact Happ|].
  pose proof (app_select is_banner _ _ _ _ _ Hphase) as Hb.
  pose proof (app_select is_kb_load _ _ _ _ _ Hphase) as Hl.
  rewrite Happ in Hb, Hl. cbn [snd] in Hb, Hl.
  by rewrite Hb, Hl by (by intros []).
Qed.

Lemma no_sources_warning_witness :
  let i := example_inputs "" "" true (example_answer "") in
  let w := (run_passes [i] (new_session example_env None)).1 in
  credentials_ok (effective_env i w) = true
  ∧ load_button_clicked i || load_requested (session_state w) = true
  ∧ resource_cache w = Some None
  ∧ create_combined_knowledge_base (pdf_url_widget i) (uploaded_pdf_widget i)
      (website_url_widget i) i w = (Ok None, w, [])
  ∧ ∃ w' t,
      app i w = (Ok None, w', t)
      ∧ List.filter is_banner t = [StWarning warning_msg]
      ∧ List.filter is_kb_load t = [].
Proof.
  intros i w.
  assert (credentials_ok (effective_env i w) = true) as Hc
    by (vm_compute; reflexivity).
  assert (resource_cache w = Some None) as Hv by (vm_compute; reflexivity).
  assert (∀ kb, resource_cache w ≠ Some (Some kb)) as Hcache
    by (intros kb Hkb; rewrite Hv in Hkb; discriminate).
  split; [exact Hc|]. split; [reflexivity|]. split; [exact Hv|].
  exact (no_sources_warning i w Hc eq_refl eq_refl eq_refl eq_refl Hcache).
Defined.

(** C5 as stated fails: after a load with a PDF URL the handle stays
    memoised; a later pass of the same session with all three inputs empty
    still has that handle and shows the success message. *)
Lemma empty_inputs_stale_success :
  ¬ (∀ passes i,
       let w := (run_passes passes (new_session example_env None)).1 in
       credentials_ok (effective_env i w) = true →
       load_button_clicked i || load_requested (session_state w) = true →
       pdf_url_widget i = "" →
       uploaded_pdf_widget i = None →
       website_url_widget i = "" →
       ∃ w' t,
         app i w = (Ok None, w', t)
         ∧ List.filter is_banner t = [StWarning warning_msg]
         ∧ List.filter is_kb_load t = []).
Proof.
  intros Hclaim.
  destruct (Hclaim
              [example_inputs "https://example.com/document.pdf" "" true
                 (example_answer "")]
              (example_inputs "" "" false (example_answer ""))
              eq_refl eq_refl eq_refl eq_refl eq_refl)
    as (w' & t & Happ & _).
  vm_compute in Happ. discriminate.
Qed.

(** C6, as the code has it: when the load is requested with at least one
    input populated and nothing is memoised yet, the pass has a combined
    handle, [load(recreate=True)] is called on it (once), and the success
    message is the banner shown. *)
Theorem populated_source_loads i w :
  credentials_ok (effective_env i w) = true →
  load_button_clicked i || load_requested (session_state w) = true →
  pdf_url_widget i ≠ "" ∨ uploaded_pdf_widget i ≠ None ∨ website_url_widget i ≠ "" →
  resource_cache w = None →
  ∃ kb w1 t1,
    knowledge_base_phase i w = (Ok (Some kb), w1, t1)
    ∧ List.filter is_kb_load (app i w).2 = [KBLoad kb true]
    ∧ List.filter is_banner (app i w).2 = [StSuccess success_msg].
Proof.
  intros Hc Hreq Hpop Hcache.
  destruct (phase_on_miss i w Hc Hreq Hcache) as (r & t1 & Hphase & Hr & Ht1).
  rewrite (proj2 (all_empty_false _ _ _)) in Hr by done.
  destruct r as [kb|]; [|done].
  eexists _, _, _. split; [exact Hphase|].
  rewrite (app_select is_kb_load _ _ _ _ _ Hphase) by (by intros []).
  rewrite (app_select is_banner _ _ _ _ _ Hphase) by (by intros []).
  by rewrite miss_events_banner, miss_events_kb_load.
Qed.

Lemma populated_source_loads_witness :
  let i := example_inputs "https://example.com/document.pdf" "" true
             (example_answer "") in
  let w := new_session example_env None in
  credentials_ok (effective_env i w) = true
  ∧ load_button_clicked i || load_requested (session_state w) = true
  ∧ pdf_url_widget i ≠ ""
  ∧ resource_cache w = None
  ∧ ∃ kb w1 t1,
      knowledge_base_phase i w = (Ok (Some kb), w1, t1)
      ∧ List.filter is_kb_load (app i w).2 = [KBLoad kb true]
      ∧ List.filter is_banner (app i w).2 = [StSuccess success_msg].
Proof.
  intros i w. split; [reflexivity|]. split; [reflexivity|]. split; [done|].
  split; [reflexivity|].
  apply (populated_source_loads i w eq_refl eq_refl); [by left|reflexivity].
Defined.

(** C6 as stated fails: a load requested with all inputs empty memoises
    [None]; when an input is filled in afterwards the pass still has no
    knowledge base, and the warning is shown. *)
Lemma populated_input_stale_warning :
  ¬ (∀ passes i,
       let w := (run_passes passes (new_session example_env None)).1 in
       credentials_ok (effective_env i w) = true →
       load_button_clicked i || load_requested (session_state w) = true →
       pdf_url_widget i ≠ "" ∨ uploaded_pdf_widget i ≠ None
       ∨ website_url_widget i ≠ "" →
       ∃ kb w1 t1,
         knowledge_base_phase i w = (Ok (Some kb), w1, t1)
         ∧ List.filter is_kb_load (app i w).2 = [KBLoad kb true]
         ∧ List.filter is_banner (app i w).2 = [StSuccess success_msg]).
Proof.
  intros Hclaim.
  assert ("https://example.com/document.pdf" ≠ "") as Hne by done.
  destruct (Hclaim
              [example_inputs "" "" true (example_answer "")]
              (example_inputs "https://example.com/document.pdf" "" true
                 (example_answer ""))
              eq_refl eq_refl (or_introl Hne))
    as (kb & w1 & t1 & Hphase & _).
  vm_compute in Hphase. discriminate.
Qed.

(** ** Sessions: what a pass does to the world *)

Lemma miss_events_cache_miss r t :
  Forall (λ e, is_temp_write e = true) t →
  List.filter is_cache_miss
    (input_events ++ CacheMiss "load_knowledge_base" :: t ++ load_events r ++ [banner r])
  = [CacheMiss "load_knowledge_base"].
Proof.
  intros Ht. simpl. rewrite List.filter_app.
  rewrite (filter_none is_cache_miss is_temp_write t) by (done || by intros []).
  by destruct r as [?|].
Qed.

Lemma app_frame i w : pass_frame i w (app i w).1.2 (app i w).2.
Proof.
  pose proof (app_cases i w) as Happ.
  pose proof (knowledge_base_phase_outcome i w) as Hout.
  destruct (knowledge_base_phase i w) as [[r1 w1] t1].
  inversion Hout as [e t Hc Ht|Hc Hreq|v Hc Hreq Hv|r t Hc Hreq Hv Hr Ht];
    subst; clear Hout; cbn beta iota in Happ.
  - rewrite Happ. cbn [fst snd].
    split; cbn [os_environ set_environ resource_cache session_state]; auto.
    + by left.
    + intros v Hv. by destruct Ht as [-> | ->].
    + left. by destruct Ht as [-> | ->].
  - destruct Happ as (r & h & t2 & -> & Hturn & Ht2 & _). cbn [fst snd].
    assert (∀ p, (∀ e, is_chat_event e = true → p e = false) →
                 List.filter p (input_events ++ t2) = List.filter p input_events)
      as Hsel.
    { intros p Hp. by rewrite List.filter_app, (filter_none p is_chat_event t2), app_nil_r. }
    unfold transcript_of in Hturn. rewrite chat_history_after_inputs in Hturn.
    split; cbn [with_history set_session os_environ resource_cache session_state
                load_requested load_knowledge_base_flag transcript_of chat_history default];
      fold (load_requested (session_state (after_inputs i w)));
      rewrite ?os_environ_after_inputs, ?load_requested_after_inputs,
        ?resource_cache_after_inputs; try done.
    + intros Hf. by rewrite Hf, orb_true_r in Hreq.
    + congruence.
    + intros v Hv. rewrite !Hsel by (by intros []). done.
    + left. rewrite !Hsel by (by intros []). done.
  - destruct Happ as (r & h & t2 & -> & Hturn & Ht2 & _). cbn [fst snd].
    assert (∀ p, (∀ e, is_chat_event e = true → p e = false) →
                 List.filter p ((input_events ++ [banner v]) ++ t2)
                 = List.filter p (input_events ++ [banner v])) as Hsel.
    { intros p Hp. by rewrite List.filter_app, (filter_none p is_chat_event t2), app_nil_r. }
    unfold transcript_of in Hturn. rewrite chat_history_after_inputs in Hturn.
    split; cbn [with_history set_session os_environ resource_cache session_state
                load_requested load_knowledge_base_flag transcript_of chat_history default];
      fold (load_requested (session_state (after_inputs i w)));
      rewrite ?os_environ_after_inputs, ?load_requested_after_inputs,
        ?resource_cache_after_inputs; try done.
    + intros _. right. by rewrite Hv.
    + intros v' Hv'. rewrite !Hsel by (by intros []). by destruct v.
    + left. rewrite !Hsel by (by intros []). by destruct v.
  - destruct Happ as (r' & h & t2 & -> & Hturn & Ht2 & _). cbn [fst snd].
    unfold transcript_of in Hturn. cbn [set_cache session_state] in Hturn.
    rewrite chat_history_after_inputs in Hturn.
    split; cbn [with_history set_session set_cache os_environ resource_cache
                session_state load_requested load_knowledge_base_flag transcript_of
                chat_history default];
      fold (load_requested (session_state (after_inputs i w)));
      rewrite ?os_environ_after_inputs, ?load_requested_after_inputs,
        ?resource_cache_after_inputs; try done.
    + intros _. right. eauto.
    + congruence.
    + right. split; [eauto|].
      pose proof (miss_events_cache_miss r t Ht) as Hm.
      pose proof (miss_events_kb_load r t Ht) as Hl.
      set (t1 := input_events ++ _) in *.
      rewrite !(List.filter_app _ t1 t2), Hm, Hl.
      rewrite (filter_none is_cache_miss is_chat_event t2) by (done || by intros []).
      rewrite (filter_none is_kb_load is_chat_event t2) by (done || by intros []).
      split; [done|]. destruct r; cbn; lia.
Qed.

Lemma run_passes_cons i passes w :
  run_passes (i :: passes) w =
    ((run_passes passes (app i w).1.2).1,
     (app i w).2 ++ (run_passes passes (app i w).1.2).2).
Proof.
  cbn [run_passes]. destruct (app i w) as [[r w1] t1]. cbn [fst snd].
  destruct (run_passes passes w1). reflexivity.
Qed.

Lemma run_passes_snoc passes i w :
  (run_passes (passes ++ [i]) w).1 = (app i (run_passes passes w).1).1.2.
Proof.
  revert w. induction passes as [|j passes IH]; intros w.
  - cbn. by destruct (app i w) as [[??]?].
  - change ((j :: passes) ++ [i]) with (j :: (passes ++ [i])).
    by rewrite !run_passes_cons, IH.
Qed.

(** ** Memoisation (lines 140-145) *)

Lemma run_passes_cache_kept passes w v :
  resource_cache w = Some v →
  resource_cache (run_passes passes w).1 = Some v
  ∧ List.filter is_cache_miss (run_passes passes w).2 = []
  ∧ List.filter is_kb_load (run_passes passes w).2 = [].
Proof.
  revert w. induction passes as [|i passes IH]; intros w Hv; [done|].
  rewrite run_passes_cons. cbn [fst snd].
  destruct (frame_cache_kept _ _ _ _ (app_frame i w) v Hv) as (Hv' & Hm & Hl).
  destruct (IH _ Hv') as (? & Hm' & Hl').
  by rewrite !List.filter_app, Hm, Hl, Hm', Hl'.
Qed.

Lemma run_passes_builds_once passes w :
  length (List.filter is_cache_miss (run_passes passes w).2) ≤ 1
  ∧ length (List.filter is_kb_load (run_passes passes w).2) ≤ 1.
Proof.
  revert w. induction passes as [|i passes IH]; intros w; [cbn; lia|].
  rewrite run_passes_cons. cbn [fst snd].
  rewrite !List.filter_app, !length_app.
  destruct (frame_cache_filled _ _ _ _ (app_frame i w))
    as [(_ & -> & ->)|([v Hv] & Hm & Hl)].
  - apply IH.
  - destruct (run_passes_cache_kept passes _ v Hv) as (_ & -> & ->). cbn. lia.
Qed.

Lemma load_knowledge_base_stores p u s i w :
  ∃ v t,
    load_knowledge_base p u s i w = (Ok v, set_cache (Some v) w, t)
    ∧ length (List.filter is_cache_miss t) ≤ 1
    ∧ length (List.filter is_kb_load t) ≤ 1.
Proof.
  destruct (resource_cache w) as [v|] eqn:Hv.
  - exists v, []. rewrite (load_knowledge_base_hit _ _ _ _ _ _ Hv).
    destruct w; cbn in *; subst. split; [done|cbn; lia].
  - destruct (load_knowledge_base_miss p u s i w Hv) as (r & t & -> & _ & Ht).
    eexists _, _. split; [done|]. cbn. rewrite !List.filter_app.
    rewrite (filter_none is_cache_miss is_temp_write t) by (done || by intros []).
    rewrite (filter_none is_kb_load is_temp_write t) by (done || by intros []).
    destruct r; cbn; lia.
Qed.

(** C7: an invocation of [load_knowledge_base] returns a value and leaves
    it memoised, running the builder and the load at most once; every later
    invocation, in the same pass or in any later pass, returns that value
    and runs neither.  Over any sequence of passes the builder and the load
    run at most once. *)
Theorem load_knowledge_base_memoized p u s i w r w1 t1 passes :
  load_knowledge_base p u s i w = (r, w1, t1) →
  ∃ v,
    r = Ok v
    ∧ resource_cache w1 = Some v
    ∧ length (List.filter is_cache_miss t1) ≤ 1
    ∧ length (List.filter is_kb_load t1) ≤ 1
    ∧ (∀ p' u' s' i', load_knowledge_base p' u' s' i' w1 = (Ok v, w1, []))
    ∧ resource_cache (run_passes passes w1).1 = Some v
    ∧ List.filter is_cache_miss (run_passes passes w1).2 = []
    ∧ List.filter is_kb_load (run_passes passes w1).2 = []
    ∧ (∀ p' u' s' i',
         load_knowledge_base p' u' s' i' (run_passes passes w1).1
         = (Ok v, (run_passes passes w1).1, []))
    ∧ (∀ w0,
         length (List.filter is_cache_miss (run_passes passes w0).2) ≤ 1
         ∧ length (List.filter is_kb_load (run_passes passes w0).2) ≤ 1).
Proof.
  intros Hload.
  destruct (load_knowledge_base_stores p u s i w) as (v & t & Hload' & Hm & Hl).
  rewrite Hload in Hload'. injection Hload' as -> -> ->.
  assert (resource_cache (set_cache (Some v) w) = Some v) as Hv by done.
  destruct (run_passes_cache_kept passes _ v Hv) as (Hv' & Hm' & Hl').
  exists v. split_and!; try done; intros;
    first [by apply load_knowledge_base_hit | apply run_passes_builds_once].
Qed.

Lemma load_knowledge_base_memoized_witness :
  let i := example_inputs "https://example.com/document.pdf" "" true
             (example_answer "") in
  let later := example_inputs "https://example.com/other.pdf" "" true
                 (example_answer "") in
  let w := new_session example_env None in
  ∃ v w1 t1,
    load_knowledge_base "https://example.com/document.pdf" None "" i w = (Ok v, w1, t1)
    ∧ resource_cache w1 = Some v
    ∧ load_knowledge_base "https://example.com/other.pdf" None "" later w1
      = (Ok v, w1, [])
    ∧ List.filter is_kb_load (run_passes [later; later] w1).2 = [].
Proof.
  intros i later w. eexists _, _, _.
  assert (load_knowledge_base "https://example.com/document.pdf" None "" i w = _)
    as Hload by (vm_compute; reflexivity).
  split; [exact Hload|].
  destruct (load_knowledge_base_memoized _ _ _ _ _ _ _ _ [later; later] Hload)
    as (v & Hv & Hc & _ & _ & Hhit & _ & _ & Hl & _).
  injection Hv as <-. split; [exact Hc|]. split; [apply Hhit|exact Hl].
Defined.

(** ** The transcript (lines 165-203) *)

Lemma paired_app h1 h2 : paired h1 → paired h2 → paired (h1 ++ h2).
Proof. induction 1; intros Hh2; [done|]. cbn. constructor. auto. Qed.

Lemma paired_even h : paired h → Nat.even (length h) = true.
Proof. induction 1; [done|]. done. Qed.

Lemma turn_added_paired h0 h : turn_added h0 h → paired h0 → paired h.
Proof.
  intros [-> | (q & a & ->)] Hp; [done|].
  apply paired_app; [done|]. repeat constructor.
Qed.

Lemma run_passes_paired passes w :
  paired (transcript_of w) → paired (transcript_of (run_passes passes w).1).
Proof.
  revert w. induction passes as [|i passes IH]; intros w Hp; [done|].
  rewrite run_passes_cons. cbn [fst]. apply IH.
  eapply turn_added_paired; [apply (frame_transcript _ _ _ _ (app_frame i w))|done].
Qed.

Lemma app_displays i w kb :
  (app i w).1.1 = Ok kb →
  ∃ t0, (app i w).2 =
          t0 ++ display_events (transcript_of (app i w).1.2) ++ [StMarkdown CustomCss].
Proof.
  pose proof (app_cases i w) as Happ.
  destruct (knowledge_base_phase i w) as [[[kb1|e] w1] t1].
  - destruct Happ as (r & h & t2 & -> & _ & _ & [(-> & t0 & ->)|(e & ->)]);
      cbn [fst snd]; [|done].
    intros _. exists (t1 ++ t0). by rewrite <-(assoc_L (++)).
  - by rewrite Happ.
Qed.

(** C9: in a session, after every pass the transcript consists of turns
    [("You", q)], [("Assistant", a)] and so has even length; a pass adds
    nothing or one whole turn at the end; and a pass that completes shows
    the transcript entry by entry in that order. *)
Theorem transcript_is_paired passes env cache i :
  let w := (run_passes passes (new_session env cache)).1 in
  let h := transcript_of (app i w).1.2 in
  paired h
  ∧ Nat.even (length h) = true
  ∧ (h = transcript_of w
     ∨ ∃ q a, h = transcript_of w ++ [("You", q); ("Assistant", a)])
  ∧ (∀ kb, (app i w).1.1 = Ok kb →
       ∃ t0, (app i w).2 = t0 ++ display_events h ++ [StMarkdown CustomCss]).
Proof.
  intros w h.
  assert (paired (transcript_of w)) as Hw
    by (apply run_passes_paired; constructor).
  pose proof (frame_transcript _ _ _ _ (app_frame i w)) as Hturn.
  assert (paired h) as Hh by (by eapply turn_added_paired).
  split_and!; [done|by apply paired_even|exact Hturn|apply app_displays].
Qed.

Lemma transcript_is_paired_witness :
  let first := example_inputs "https://example.com/document.pdf"
                 "What is machine learning?" true (example_answer "A field of AI.") in
  let i := example_inputs "https://example.com/document.pdf"
             "And deep learning?" false (example_answer "A part of it.") in
  let w := (run_passes [first] (new_session example_env None)).1 in
  transcript_of (app i w).1.2 =
    [("You", "What is machine learning?"); ("Assistant", "A field of AI.");
     ("You", "And deep learning?"); ("Assistant", "A part of it.")]
  ∧ ∃ t0, (app i w).2 =
            t0 ++ display_events (transcript_of (app i w).1.2) ++ [StMarkdown CustomCss].
Proof.
  intros first i w. split; [vm_compute; reflexivity|].
  destruct (transcript_is_paired [first] example_env None i) as (_ & _ & _ & Hshow).
  assert (∃ kb, (app i w).1.1 = Ok kb) as [kb Hkb]
    by (eexists; vm_compute; reflexivity).
  exact (Hshow kb Hkb).
Defined.

(** ** The load flag (lines 65-66, 148-150) *)

Lemma credential_set_union env d k :
  credential_set env k = true → credential_set (env ∪ d) k = true.
Proof.
  unfold credential_set. destruct (env !! k) as [v|] eqn:Hk; [|done].
  by rewrite (lookup_union_Some_l env d k v Hk).
Qed.

Lemma credentials_ok_union env d :
  credentials_ok env = true → credentials_ok (env ∪ d) = true.
Proof.
  unfold credentials_ok. rewrite !andb_true_iff. intros [??].
  split; by apply credential_set_union.
Qed.

Lemma app_flag_invariant i w : flag_invariant w → flag_invariant (app i w).1.2.
Proof.
  intros Hinv Hflag. pose proof (app_frame i w) as Hf.
  rewrite (frame_environ _ _ _ _ Hf).
  destruct (frame_flag_set _ _ _ _ Hf Hflag) as [Hbefore|[Hc Hv]]; [|done].
  destruct (Hinv Hbefore) as [Hc [v Hv]].
  split; [by apply credentials_ok_union|].
  destruct (frame_cache_kept _ _ _ _ Hf v Hv) as (-> & _). eauto.
Qed.

Lemma run_passes_flag_invariant passes w :
  flag_invariant w → flag_invariant (run_passes passes w).1.
Proof.
  revert w. induction passes as [|i passes IH]; intros w Hinv; [done|].
  rewrite run_passes_cons. cbn [fst]. by apply IH, app_flag_invariant.
Qed.

Lemma run_passes_flag_kept passes w :
  load_requested (session_state w) = true →
  load_requested (session_state (run_passes passes w).1) = true.
Proof.
  revert w. induction passes as [|i passes IH]; intros w Hflag; [done|].
  rewrite run_passes_cons. cbn [fst].
  by apply IH, (frame_flag_kept _ _ _ _ (app_frame i w)).
Qed.

(** C10: in a session, once the flag is set it stays set over any further
    passes, and every pass run with the flag set takes the load path and is
    served from the memoised result: it gets past the credential check,
    returns the memoised handle, shows its banner, and neither builds nor
    loads. *)
Theorem load_flag_never_cleared passes env cache later i :
  let w := (run_passes passes (new_session env cache)).1 in
  load_requested (session_state w) = true →
  load_requested (session_state (run_passes later w).1) = true
  ∧ load_requested (session_state (app i w).1.2) = true
  ∧ ∃ v,
      resource_cache w = Some v
      ∧ knowledge_base_phase i w =
          (Ok v, after_inputs i w, input_events ++ [banner v])
      ∧ List.filter is_cache_miss (app i w).2 = []
      ∧ List.filter is_kb_load (app i w).2 = [].
Proof.
  intros w Hflag.
  assert (flag_invariant w) as Hinv
    by (apply run_passes_flag_invariant; by intros ?).
  destruct (Hinv Hflag) as [Hc [v Hv]].
  pose proof (app_frame i w) as Hf.
  split; [by apply run_passes_flag_kept|].
  split; [by apply (frame_flag_kept _ _ _ _ Hf)|].
  exists v. split; [done|].
  destruct (frame_cache_kept _ _ _ _ Hf v Hv) as (_ & Hm & Hl).
  split_and!; [|done|done].
  apply phase_on_hit; [by apply credentials_ok_union| |done].
  by rewrite Hflag, orb_true_r.
Qed.

Lemma load_flag_never_cleared_witness :
  let first := example_inputs "https://example.com/document.pdf" "" true
                 (example_answer "") in
  let i := example_inputs "" "" false (example_answer "") in
  let w := (run_passes [first] (new_session example_env None)).1 in
  load_requested (session_state w) = true
  ∧ load_requested (session_state (run_passes [i; i; i] w).1) = true
  ∧ load_requested (session_state (app i w).1.2) = true
  ∧ ∃ v,
      resource_cache w = Some v
      ∧ knowledge_base_phase i w =
          (Ok v, after_inputs i w, input_events ++ [banner v])
      ∧ List.filter is_cache_miss (app i w).2 = []
      ∧ List.filter is_kb_load (app i w).2 = [].
Proof.
  intros first i w.
  assert (load_requested (session_state w) = true) as Hflag
    by (vm_compute; reflexivity).
  split; [exact Hflag|].
  exact (load_flag_never_cleared [first] example_env None [i; i; i] i Hflag).
Defined.

(** * Further properties of the script *)

(** ** The [in] test of line 189 *)

Lemma prefix_append p s :
  String.prefix p s = true ↔ ∃ post, s = String.append p post.
Proof.
  revert s. induction p as [|a p IH]; intros s.
  - destruct s; cbn; (split; [eauto|done]).
  - destruct s as [|b s]; cbn.
    + split; [done|]. by intros [post ?].
    + destruct (Ascii.ascii_dec a b) as [->|Hab].
      * rewrite IH. split; intros [post Hpost]; exists post.
        -- by rewrite Hpost.
        -- by injection Hpost.
      * split; [done|]. intros [post Hpost]. injection Hpost as ??. done.
Qed.

(** [needle in hay] holds exactly when [needle] occurs in [hay] as a
    contiguous piece: the test of line 189 finds the marker anywhere in the
    text of the exception. *)
Theorem str_contains_substring needle hay :
  str_contains needle hay = true
  ↔ ∃ pre post, hay = String.append pre (String.append needle post).
Proof.
  induction hay as [|b hay IH].
  - cbn [str_contains]. rewrite orb_false_r, prefix_append. split.
    + intros [post ->]. by exists "", post.
    + intros (pre & post & Heq). destruct pre as [|? ?]; [|done]. eauto.
  - cbn [str_contains]. rewrite orb_true_iff, prefix_append, IH. split.
    + intros [[post ->]|(pre & post & ->)].
      * by exists "", post.
      * by exists (String b pre), post.
    + intros (pre & post & Heq). destruct pre as [|c pre].
      * left. eauto.
      * right. injection Heq as -> ->. eauto.
Qed.

(** ** The aggregator (lines 114-135) *)

(** The combined handle has one source per populated input, in the order
    PDF URL, uploaded PDF, website, each on its own collection: the filter
    of line 128 drops nothing.  The handle itself is on
    [combined_documents], which is none of the sources' collections.  The
    only effect is the temporary file of the upload. *)
Theorem combined_sources_follow_inputs p u s i w :
  ∃ r,
    create_combined_knowledge_base p u s i w = (Ok r, w, temp_events_of u i)
    ∧ match r with
      | Some kb =>
          map (λ k, collection (vector_db_of k)) (sources kb) = source_collections p u s
          ∧ source_collections p u s ≠ []
          ∧ collection (combined_vector_db kb) = "combined_documents"
          ∧ "combined_documents" ∉ source_collections p u s
      | None => source_collections p u s = []
      end.
Proof.
  unfold create_combined_knowledge_base, create_local_pdf_knowledge_base,
    create_pdf_url_knowledge_base, create_website_knowledge_base,
    source_collections, temp_events_of.
  destruct (str_truthy p) eqn:Hp, u as [f|], (str_truthy s) eqn:Hs; run;
    rewrite ?Hp, ?Hs; (eexists; split; [reflexivity|]); cbn; try done;
    split_and!; try done; by apply (bool_decide_unpack _).
Qed.

(** ** Events of a pass, kind by kind *)

Lemma create_combined_events p u s i w :
  ∃ r,
    create_combined_knowledge_base p u s i w = (Ok r, w, temp_events_of u i)
    ∧ is_Some_b r = negb (all_empty p u s).
Proof.
  unfold create_combined_knowledge_base, create_local_pdf_knowledge_base,
    all_empty, temp_events_of.
  destruct (str_truthy p), u as [f|], (str_truthy s); run;
    (eexists; split; reflexivity).
Qed.

Lemma phase_miss_exact i w :
  credentials_ok (effective_env i w) = true →
  load_path i w = true →
  resource_cache w = None →
  ∃ r,
    knowledge_base_phase i w =
      (Ok r, set_cache (Some r) (after_inputs i w),
       input_events ++ CacheMiss "load_knowledge_base"
         :: temp_events_of (uploaded_pdf_widget i) i ++ load_events r ++ [banner r])
    ∧ is_Some_b r =
        negb (all_empty (pdf_url_widget i) (uploaded_pdf_widget i) (website_url_widget i)).
Proof.
  intros Hc Hreq Hcache. rewrite (knowledge_base_phase_ok _ _ Hc).
  unfold load_section, load_knowledge_base, st_cache_resource. run.
  rewrite load_requested_after_inputs. unfold load_path in Hreq. rewrite Hreq. run.
  rewrite resource_cache_after_inputs, Hcache. run.
  destruct (create_combined_events (pdf_url_widget i) (uploaded_pdf_widget i)
              (website_url_widget i) i (after_inputs i w)) as (r & Hr & Hs).
  exists r. split; [|done]. rewrite bind_prefix, Hr.
  destruct r; run; cbn; rewrite <-?(assoc_L (++)); reflexivity.
Qed.

(** The phase, case by case, with its events. *)
Lemma phase_exact i w :
  (credentials_ok (effective_env i w) = false
   ∧ ∃ e t, knowledge_base_phase i w = (Raise e, set_environ (effective_env i w) w, t)
            ∧ (t = [] ∨ t = [StError missing_keys_msg]))
  ∨ (credentials_ok (effective_env i w) = true ∧ load_path i w = false
     ∧ knowledge_base_phase i w = (Ok None, after_inputs i w, input_events))
  ∨ (credentials_ok (effective_env i w) = true ∧ load_path i w = true
     ∧ ∃ v, resource_cache w = Some v
            ∧ knowledge_base_phase i w =
                (Ok v, after_inputs i w, input_events ++ [banner v]))
  ∨ (credentials_ok (effective_env i w) = true ∧ load_path i w = true
     ∧ resource_cache w = None
     ∧ ∃ r,
         knowledge_base_phase i w =
           (Ok r, set_cache (Some r) (after_inputs i w),
            input_events ++ CacheMiss "load_knowledge_base"
              :: temp_events_of (uploaded_pdf_widget i) i ++ load_events r ++ [banner r])
         ∧ is_Some_b r =
             negb (all_empty (pdf_url_widget i) (uploaded_pdf_widget i)
                     (website_url_widget i))).
Proof.
  destruct (credentials_ok (effective_env i w)) eqn:Hc.
  - right. destruct (load_path i w) eqn:Hreq.
    + right. destruct (resource_cache w) as [v|] eqn:Hv.
      * left. split_and!; try done. exists v. split; [done|]. by apply phase_on_hit.
      * right. split_and!; try done. by apply phase_miss_exact.
    + left. split_and!; try done.
      pose proof (knowledge_base_phase_outcome i w) as Hout.
      unfold load_path in Hreq. destruct Hout; congruence.
  - left. split; [done|]. by apply knowledge_base_phase_halt.
Qed.

(** A kind of event that neither the chat section nor the display nor the
    credential check produces is counted up to the load section. *)
Lemma app_select_phase (p : event → bool) i w :
  (∀ e, is_chat_event e = true → p e = false) →
  List.filter p (app i w).2 = List.filter p (knowledge_base_phase i w).2.
Proof.
  intros Hchat. destruct (knowledge_base_phase i w) as [[[kb|e] w1] t1] eqn:Hp.
  - by apply app_select with kb w1.
  - by rewrite (app_halt _ _ _ _ _ Hp).
Qed.

Lemma filter_temp_events p u i :
  (∀ path data, p (TempFileWrite path data) = false) →
  List.filter p (temp_events_of u i) = [].
Proof. intros Hp. destruct u; cbn; by rewrite ?Hp. Qed.

Lemma app_cache i w :
  resource_cache (app i w).1.2 = resource_cache (knowledge_base_phase i w).1.2.
Proof.
  pose proof (app_cases i w) as Happ.
  destruct (knowledge_base_phase i w) as [[[kb|e] w1] t1].
  - by destruct Happ as (r & h & t2 & -> & _).
  - by rewrite Happ.
Qed.

(** What a pass builds, loads and announces. *)
Lemma pass_load_summary i w :
  let t := (app i w).2 in
  let w' := (app i w).1.2 in
  if pass_builds i w then
    ∃ r,
      resource_cache w' = Some r
      ∧ is_Some_b r =
          negb (all_empty (pdf_url_widget i) (uploaded_pdf_widget i) (website_url_widget i))
      ∧ List.filter is_cache_miss t = [CacheMiss "load_knowledge_base"]
      ∧ List.filter is_temp_write t = temp_events_of (uploaded_pdf_widget i) i
      ∧ List.filter is_kb_load t = load_events r
      ∧ List.filter is_banner t = [banner r]
  else
    resource_cache w' = resource_cache w
    ∧ List.filter is_cache_miss t = []
    ∧ List.filter is_temp_write t = []
    ∧ List.filter is_kb_load t = []
    ∧ List.filter is_banner t =
        (if credentials_ok (effective_env i w) && load_path i w
         then match resource_cache w with Some v => [banner v] | None => [] end
         else []).
Proof.
  cbv zeta. rewrite app_cache.
  rewrite !app_select_phase by (by intros []).
  unfold pass_builds.
  destruct (phase_exact i w)
    as [(Hc & e & t & -> & Ht)|[(Hc & Hreq & ->)|[(Hc & Hreq & v & Hv & ->)
        |(Hc & Hreq & Hv & r & -> & Hr)]]];
    rewrite Hc, ?Hreq, ?Hv; cbn [andb negb is_Some_b fst snd].
  - cbn. by destruct Ht as [-> | ->].
  - cbn. by rewrite resource_cache_after_inputs.
  - rewrite resource_cache_after_inputs. split; [done|]. by destruct v.
  - exists r. split; [done|]. split; [done|].
    simpl. rewrite !List.filter_app.
    rewrite !filter_temp_events by done.
    destruct r, (uploaded_pdf_widget i); done.
Qed.

Lemma phase_handle_memoised i w kb w1 t1 :
  knowledge_base_phase i w = (Ok (Some kb), w1, t1) →
  resource_cache w1 = Some (Some kb).
Proof.
  intros Hp.
  destruct (phase_exact i w)
    as [(Hc & e & t & Heq & Ht)|[(Hc & Hreq & Heq)|[(Hc & Hreq & v & Hv & Heq)
        |(Hc & Hreq & Hv & r & Heq & Hr)]]];
    rewrite Hp in Heq; simplify_eq; cbn [set_cache resource_cache]; try done.
  by rewrite resource_cache_after_inputs.
Qed.

Lemma filter_agent_load t :
  Forall (λ e, is_load_event e = true) t → List.filter is_agent_event t = [].
Proof. intros Ht. eapply filter_none; [exact Ht|by intros []]. Qed.

Lemma filter_agent_display h : List.filter is_agent_event (display_tail h) = [].
Proof.
  eapply filter_none; [apply display_tail_markdown|by intros []].
Qed.

(** What a pass asks the agent and adds to the transcript. *)
Lemma pass_chat_summary i w :
  let t := (app i w).2 in
  let w' := (app i w).1.2 in
  (List.filter is_agent_event t = [] ∧ transcript_of w' = transcript_of w)
  ∨ ∃ kb,
      List.filter is_agent_event t = agent_events kb (question_widget i)
      ∧ resource_cache w' = Some (Some kb)
      ∧ str_truthy (question_widget i) = true
      ∧ (transcript_of w' = transcript_of w
         ∨ ∃ r, assistant_run i (new_agent kb) (question_widget i) = Returns r
                ∧ transcript_of w' =
                    transcript_of w ++
                      [("You", question_widget i); ("Assistant", clean_response r)]).
Proof.
  cbv zeta.
  destruct (knowledge_base_phase i w) as [[[kb|e] w1] t1] eqn:Hp.
  - destruct (phase_returns _ _ _ _ _ Hp) as [Htr Ht1].
    pose proof (filter_agent_load t1 Ht1) as Hn1.
    destruct (str_truthy (question_widget i)) eqn:Hq; [destruct kb as [kb|]|].
    + pose proof (phase_handle_memoised _ _ _ _ _ Hp) as Hv.
      right. exists kb.
      destruct (assistant_run i (new_agent kb) (question_widget i)) as [r|e] eqn:Hr.
      * rewrite (app_returns _ _ _ _ _ _ Hp Hq Hr). cbn [fst snd].
        rewrite !List.filter_app, Hn1, filter_agent_display.
        split_and!; [done|done|done|]. right. exists r. by rewrite <-Htr.
      * destruct (chat_handlers_cases e) as [[msg Hh]|Hh].
        -- rewrite (app_raises_handled _ _ _ _ _ _ _ Hp Hq Hr Hh). cbn [fst snd].
           rewrite !List.filter_app, Hn1, filter_agent_display.
           split_and!; [done|done|done|]. left. by rewrite <-Htr.
        -- rewrite (app_raises_unhandled _ _ _ _ _ _ Hp Hq Hr Hh). cbn [fst snd].
           rewrite !List.filter_app, Hn1.
           split_and!; [done|done|done|]. left. by rewrite <-Htr.
    + left. rewrite (app_skip _ _ _ _ _ Hp (or_intror eq_refl)). cbn [fst snd].
      rewrite !List.filter_app, Hn1, filter_agent_display. by rewrite <-Htr.
    + left. rewrite (app_skip _ _ _ _ _ Hp (or_introl Hq)). cbn [fst snd].
      rewrite !List.filter_app, Hn1, filter_agent_display. by rewrite <-Htr.
  - left. rewrite (app_halt _ _ _ _ _ Hp). cbn [fst snd].
    destruct (phase_exact i w)
      as [(Hc & e' & t & Heq & Ht)|[(Hc & Hreq & Heq)|[(Hc & Hreq & v & Hv & Heq)
          |(Hc & Hreq & Hv & r & Heq & Hr)]]];
      rewrite Hp in Heq; simplify_eq.
    by destruct Ht as [-> | ->].
Qed.

(** ** The credential check (lines 19-27), seen from a pass *)

Lemma empty_credential_stops_witness :
  let i := example_inputs "" "" false (example_answer "") in
  let w := new_session (<["GROQ_API_KEY" := ""]> example_env) None in
  effective_env i w !! "GROQ_API_KEY" = Some ""
  ∧ effective_env i w !! "GOOGLE_API_KEY" = Some "AIza_example"
  ∧ app i w =
      (Raise (Exn StopException ""), set_environ (effective_env i w) w,
       [StError missing_keys_msg]).
Proof.
  intros i w.
  assert (effective_env i w !! "GROQ_API_KEY" = Some "") as Hg by reflexivity.
  assert (effective_env i w !! "GOOGLE_API_KEY" = Some "AIza_example") as Hk
    by reflexivity.
  split; [exact Hg|]. split; [exact Hk|].
  exact (empty_credential_stops i w _ _ Hg Hk (or_introl eq_refl)).
Defined.

(** The check is a gate for the whole pass.  With both credentials set
    and non-empty the pass shows the input widgets first.  Otherwise it
    ends in an exception having shown nothing or only the "Missing API
    Keys" error, and leaves the session state and the memoised result as
    they were. *)
Theorem credential_gate i w :
  if credentials_ok (effective_env i w) then
    ∃ t, (app i w).2 = input_events ++ t
  else
    (∃ e, (app i w).1.1 = Raise e)
    ∧ ((app i w).2 = [] ∨ (app i w).2 = [StError missing_keys_msg])
    ∧ session_state (app i w).1.2 = session_state w
    ∧ resource_cache (app i w).1.2 = resource_cache w.
Proof.
  destruct (credentials_ok (effective_env i w)) eqn:Hc.
  - destruct (credentials_present_proceed i w Hc) as (r & w' & t & ->). eauto.
  - destruct (knowledge_base_phase_halt i w Hc) as (e & t & Hp & Ht).
    rewrite (app_halt _ _ _ _ _ Hp). cbn. eauto.
Qed.

(** ** Banner and handle (lines 147-154) *)

(** In a pass that gets past the credential check, the banner follows the
    handle the chat section will use: success with a handle, the warning
    without one, when the load path is taken; no banner and no handle when
    it is not. *)
Theorem banner_matches_handle i w kb w1 t1 :
  knowledge_base_phase i w = (Ok kb, w1, t1) →
  List.filter is_banner (app i w).2 = (if load_path i w then [banner kb] else [])
  ∧ (load_path i w = false → kb = None).
Proof.
  intros Hp. rewrite app_select_phase by (by intros []). rewrite Hp. cbn [snd].
  destruct (phase_exact i w)
    as [(Hc & e & t & Heq & Ht)|[(Hc & Hreq & Heq)|[(Hc & Hreq & v & Hv & Heq)
        |(Hc & Hreq & Hv & r & Heq & Hr)]]];
    rewrite Hp in Heq; simplify_eq; rewrite Hreq; split; try done.
  - by destruct v.
  - simpl. rewrite !List.filter_app, filter_temp_events by done.
    by destruct r.
Qed.

Lemma banner_matches_handle_witness :
  let i := example_inputs "https://example.com/document.pdf" "" true
             (example_answer "") in
  let w := new_session example_env None in
  ∃ kb w1 t1,
    knowledge_base_phase i w = (Ok kb, w1, t1)
    ∧ List.filter is_banner (app i w).2 = (if load_path i w then [banner kb] else [])
    ∧ (load_path i w = false → kb = None).
Proof.
  intros i w. eexists _, _, _.
  assert (knowledge_base_phase i w = _) as Hp by (vm_compute; reflexivity).
  split; [exact Hp|]. exact (banner_matches_handle i w _ _ _ Hp).
Defined.

(** ** Sessions: builds, loads and temporary files *)

Lemma pass_builds_cache_filled i w :
  pass_builds i w = true → is_Some (resource_cache (app i w).1.2).
Proof.
  intros Hb. pose proof (pass_load_summary i w) as Hs. cbv zeta in Hs.
  rewrite Hb in Hs. destruct Hs as (r & -> & _). eauto.
Qed.

Lemma pass_builds_needs_miss i w v :
  resource_cache w = Some v → pass_builds i w = false.
Proof. intros Hv. unfold pass_builds. rewrite Hv. by rewrite andb_false_r. Qed.

Lemma run_passes_no_temp_write passes w v :
  resource_cache w = Some v →
  List.filter is_temp_write (run_passes passes w).2 = [].
Proof.
  revert w. induction passes as [|i passes IH]; intros w Hv; [done|].
  rewrite run_passes_cons. cbn [snd]. rewrite List.filter_app.
  pose proof (pass_load_summary i w) as Hs. cbv zeta in Hs.
  rewrite (pass_builds_needs_miss i w v Hv) in Hs.
  destruct Hs as (Hcache & _ & -> & _).
  rewrite (IH (app i w).1.2) by (by rewrite Hcache). done.
Qed.

(** The upload is written to a temporary file only in a pass that runs the
    body of [load_knowledge_base], as one file named with suffix [.pdf]
    holding the uploaded bytes.  In a whole session at most one temporary
    file is written, and none once a result is memoised. *)
Theorem temp_file_only_on_build passes i w :
  List.filter is_temp_write (app i w).2 =
    (if pass_builds i w then temp_events_of (uploaded_pdf_widget i) i else [])
  ∧ length (List.filter is_temp_write (run_passes passes w).2) ≤ 1
  ∧ match resource_cache w with
    | Some _ => List.filter is_temp_write (run_passes passes w).2 = []
    | None => True
    end.
Proof.
  split_and!.
  - pose proof (pass_load_summary i w) as Hs. cbv zeta in Hs.
    destruct (pass_builds i w).
    + by destruct Hs as (r & _ & _ & _ & -> & _).
    + by destruct Hs as (_ & _ & -> & _).
  - clear i. revert w. induction passes as [|i passes IH]; intros w; [cbn; lia|].
    rewrite run_passes_cons. cbn [snd]. rewrite List.filter_app, length_app.
    pose proof (pass_load_summary i w) as Hs. cbv zeta in Hs.
    destruct (pass_builds i w) eqn:Hb.
    + destruct Hs as (r & Hcache & _ & _ & -> & _).
      rewrite (run_passes_no_temp_write passes _ r Hcache).
      destruct (uploaded_pdf_widget i); cbn; lia.
    + destruct Hs as (_ & _ & -> & _). apply IH.
  - destruct (resource_cache w) as [v|] eqn:Hv; [|done].
    by apply run_passes_no_temp_write with v.
Qed.

Lemma kb_load_in_pass i w kb b :
  In (KBLoad kb b) (app i w).2 →
  b = true ∧ resource_cache (app i w).1.2 = Some (Some kb).
Proof.
  intros Hin.
  assert (In (KBLoad kb b) (List.filter is_kb_load (app i w).2)) as Hf
    by (by apply List.filter_In).
  pose proof (pass_load_summary i w) as Hs. cbv zeta in Hs.
  destruct (pass_builds i w).
  - destruct Hs as (r & Hcache & _ & _ & _ & Hl & _). rewrite Hl in Hf.
    destruct r as [kb'|]; [|done]. destruct Hf as [Heq|[]].
    injection Heq as -> <-. done.
  - destruct Hs as (_ & _ & _ & Hl & _). by rewrite Hl in Hf.
Qed.

(** Every index load of a session is called with [recreate=True], on the
    handle that is then memoised for the rest of the session. *)
Theorem load_always_recreates passes w kb b :
  In (KBLoad kb b) (run_passes passes w).2 →
  b = true ∧ resource_cache (run_passes passes w).1 = Some (Some kb).
Proof.
  revert w. induction passes as [|i passes IH]; intros w; [done|].
  rewrite run_passes_cons. cbn [fst snd]. intros [Hin|Hin]%List.in_app_or.
  - destruct (kb_load_in_pass i w kb b Hin) as [-> Hcache].
    split; [done|]. by apply run_passes_cache_kept.
  - by apply IH.
Qed.

Lemma load_always_recreates_witness :
  let first := example_inputs "https://example.com/document.pdf" "" true
                 (example_answer "") in
  let later := example_inputs "https://example.com/other.pdf" "" true
                 (example_answer "") in
  let out := run_passes [first; later] (new_session example_env None) in
  ∃ kb b,
    In (KBLoad kb b) out.2 ∧ b = true ∧ resource_cache out.1 = Some (Some kb).
Proof.
  intros first later out.
  assert (∃ kb b, In (KBLoad kb b) out.2) as (kb & b & Hin).
  { eexists _, _. vm_compute. repeat (first [left; reflexivity | right]). }
  exists kb, b. split; [exact Hin|].
  exact (load_always_recreates [first; later] _ kb b Hin).
Defined.

(** ** Sessions: the agent and the transcript *)

Lemma agent_in_pass i w a :
  (In (AgentNew a) (app i w).2 ∨ ∃ q, In (AgentRun a q) (app i w).2) →
  ∃ kb, a = new_agent kb ∧ resource_cache (app i w).1.2 = Some (Some kb).
Proof.
  intros Hin.
  assert (∃ e, In e (List.filter is_agent_event (app i w).2)
               ∧ (e = AgentNew a ∨ ∃ q, e = AgentRun a q)) as (e & Hf & He).
  { destruct Hin as [Hin|[q Hin]]; eexists; (split; [by apply List.filter_In|]); eauto. }
  destruct (pass_chat_summary i w) as [[Hnone _]|(kb & Hev & Hcache & _)].
  - by rewrite Hnone in Hf.
  - rewrite Hev in Hf. exists kb. split; [|done].
    destruct Hf as [<-|[<-|[]]]; destruct He as [He|[q He]]; congruence.
Qed.

(** Every agent of a session is built on the memoised handle (and with the
    settings of lines 169-179), whatever the source inputs are at that
    time: an answer always comes from the knowledge base that was loaded
    first. *)
Theorem agent_uses_memoised_handle passes w a :
  (In (AgentNew a) (run_passes passes w).2
   ∨ ∃ q, In (AgentRun a q) (run_passes passes w).2) →
  ∃ kb, a = new_agent kb ∧ resource_cache (run_passes passes w).1 = Some (Some kb).
Proof.
  revert w. induction passes as [|i passes IH]; intros w.
  - by intros [[]|[q []]].
  - rewrite run_passes_cons. cbn [fst snd]. intros Hin.
    assert ((In (AgentNew a) (app i w).2 ∨ ∃ q, In (AgentRun a q) (app i w).2)
            ∨ (In (AgentNew a) (run_passes passes (app i w).1.2).2
               ∨ ∃ q, In (AgentRun a q) (run_passes passes (app i w).1.2).2))
      as [Hnow|Hlater].
    { destruct Hin as [[?|?]%List.in_app_or|[q [?|?]%List.in_app_or]]; eauto. }
    + destruct (agent_in_pass i w a Hnow) as (kb & -> & Hcache).
      exists kb. split; [done|]. by apply run_passes_cache_kept.
    + by apply IH.
Qed.

Lemma agent_uses_memoised_handle_witness :
  let first := example_inputs "https://example.com/document.pdf"
                 "What is machine learning?" true (example_answer "A field of AI.") in
  let later := example_inputs "https://example.com/other.pdf"
                 "And deep learning?" true (example_answer "A part of it.") in
  let out := run_passes [first; later] (new_session example_env None) in
  ∃ a kb,
    In (AgentRun a "And deep learning?") out.2
    ∧ a = new_agent kb
    ∧ resource_cache out.1 = Some (Some kb)
    ∧ sources kb =
        [PDFUrlKnowledgeBase llama3 ["https://example.com/document.pdf"]
           {| collection := "pdf_url"; pg_db_url := db_url;
              embedder := GeminiEmbedder |}].
Proof.
  intros first later out.
  assert (∃ a, In (AgentRun a "And deep learning?") out.2) as (a & Hin).
  { eexists. vm_compute. repeat (first [left; reflexivity | right]). }
  assert (In (AgentNew a) out.2 ∨ ∃ q, In (AgentRun a q) out.2) as Hused
    by (right; exists "And deep learning?"; exact Hin).
  destruct (agent_uses_memoised_handle [first; later] _ a Hused)
    as (kb & Ha & Hcache).
  exists a, kb. split; [exact Hin|]. split; [exact Ha|]. split; [exact Hcache|].
  clear Ha. vm_compute in Hcache. by injection Hcache as <-.
Defined.

Lemma filter_agent_run_events t :
  List.filter is_agent_run t = List.filter is_agent_run (List.filter is_agent_event t).
Proof.
  induction t as [|e t IH]; [done|]. destruct e; cbn; by rewrite ?IH.
Qed.

Lemma pass_agent_runs i w :
  length (transcript_of (app i w).1.2)
    ≤ length (transcript_of w) + 2 * length (List.filter is_agent_run (app i w).2)
  ∧ length (List.filter is_agent_run (app i w).2) ≤ 1.
Proof.
  rewrite filter_agent_run_events.
  destruct (pass_chat_summary i w) as [[-> ->]|(kb & -> & _ & _ & [->|(r & _ & ->)])];
    rewrite ?length_app; cbn; lia.
Qed.

(** A turn enters the transcript only through a run of the agent: the
    transcript never grows by more than two entries per agent run, and the
    agent is run at most once per pass. *)
Theorem transcript_bounded_by_agent_runs passes w :
  length (transcript_of (run_passes passes w).1)
    ≤ length (transcript_of w)
      + 2 * length (List.filter is_agent_run (run_passes passes w).2)
  ∧ length (List.filter is_agent_run (run_passes passes w).2) ≤ length passes.
Proof.
  revert w. induction passes as [|i passes IH]; intros w; [cbn; lia|].
  rewrite run_passes_cons. cbn [fst snd length].
  rewrite List.filter_app, length_app.
  destruct (pass_agent_runs i w) as [Hlen Hone].
  destruct (IH (app i w).1.2) as [Hlen' Hcount]. lia.
Qed.

(** The transcript only grows, and by whole turns: at any later time of a
    session it is the earlier transcript followed by question/answer
    pairs. *)
Theorem transcript_append_only passes w :
  ∃ new,
    transcript_of (run_passes passes w).1 = transcript_of w ++ new
    ∧ paired new.
Proof.
  revert w. induction passes as [|i passes IH]; intros w.
  - exists []. split; [by rewrite app_nil_r|constructor].
  - rewrite run_passes_cons. cbn [fst].
    destruct (IH (app i w).1.2) as (new & -> & Hnew).
    destruct (frame_transcript _ _ _ _ (app_frame i w)) as [-> | (q & a & ->)].
    + eauto.
    + exists ([("You", q); ("Assistant", a)] ++ new).
      split; [by rewrite <-(assoc_L (++))|]. cbn. by constructor.
Qed.

(** ** Before the load button is pressed *)

Lemma pass_idle i w :
  load_requested (session_state w) = false →
  load_button_clicked i = false →
  load_requested (session_state (app i w).1.2) = false
  ∧ transcript_of (app i w).1.2 = transcript_of w
  ∧ resource_cache (app i w).1.2 = resource_cache w
  ∧ List.filter is_agent_event (app i w).2 = []
  ∧ List.filter is_cache_miss (app i w).2 = []
  ∧ List.filter is_kb_load (app i w).2 = []
  ∧ List.filter is_banner (app i w).2 = [].
Proof.
  intros Hflag Hclick.
  assert (load_path i w = false) as Hpath
    by (unfold load_path; by rewrite Hflag, Hclick).
  destruct (phase_exact i w)
    as [(_ & e & t & Heq & Ht)|[(_ & _ & Heq)|[(_ & Hreq & _)|(_ & Hreq & _)]]];
    try congruence.
  - rewrite (app_halt _ _ _ _ _ Heq). cbn [fst snd].
    split_and!; try done; by destruct Ht as [-> | ->].
  - rewrite (app_skip _ _ _ _ _ Heq (or_intror eq_refl)). cbn [fst snd].
    assert (∀ p, (∀ m, p (StMarkdown m) = false) →
                 List.filter p (display_tail (transcript_of (after_inputs i w))) = [])
      as Hdisplay.
    { intros p Hp. eapply filter_none; [apply display_tail_markdown|].
      intros []; try done; intros _; apply Hp. }
    rewrite !List.filter_app, !Hdisplay by done.
    split_and!; try done.
    + change (load_requested (session_state (after_inputs i w)) = false).
      rewrite load_requested_after_inputs. exact Hpath.
    + change (transcript_of (after_inputs i w) = transcript_of w).
      unfold transcript_of. by rewrite chat_history_after_inputs.
    + change (resource_cache (after_inputs i w) = resource_cache w).
      apply resource_cache_after_inputs.
Qed.

(** In a session in which the load button has not been pressed, nothing is
    built, loaded or announced, the agent is never constructed and the
    transcript does not change, whatever is typed into the inputs and even
    when another session has already memoised a handle. *)
Theorem nothing_happens_before_load passes w :
  load_requested (session_state w) = false →
  Forall (λ i, load_button_clicked i = false) passes →
  load_requested (session_state (run_passes passes w).1) = false
  ∧ transcript_of (run_passes passes w).1 = transcript_of w
  ∧ resource_cache (run_passes passes w).1 = resource_cache w
  ∧ List.filter is_agent_event (run_passes passes w).2 = []
  ∧ List.filter is_cache_miss (run_passes passes w).2 = []
  ∧ List.filter is_kb_load (run_passes passes w).2 = []
  ∧ List.filter is_banner (run_passes passes w).2 = [].
Proof.
  intros Hflag Hpasses. revert w Hflag.
  induction Hpasses as [|i passes Hclick _ IH]; intros w Hflag; [done|].
  rewrite run_passes_cons. cbn [fst snd].
  destruct (pass_idle i w Hflag Hclick) as (Hf & Htr & Hc & Ha & Hm & Hl & Hb).
  destruct (IH _ Hf) as (Hf' & Htr' & Hc' & Ha' & Hm' & Hl' & Hb').
  rewrite !List.filter_app, Ha, Hm, Hl, Hb, Ha', Hm', Hl', Hb'.
  split_and!; try done; congruence.
Qed.

Lemma nothing_happens_before_load_witness :
  let i := example_inputs "https://example.com/document.pdf"
             "What is machine learning?" false (example_answer "A field of AI.") in
  let w := new_session example_env None in
  let out := run_passes [i; i] w in
  load_requested (session_state w) = false
  ∧ Forall (λ i, load_button_clicked i = false) [i; i]
  ∧ load_requested (session_state out.1) = false
  ∧ transcript_of out.1 = transcript_of w
  ∧ resource_cache out.1 = resource_cache w
  ∧ List.filter is_agent_event out.2 = []
  ∧ List.filter is_cache_miss out.2 = []
  ∧ List.filter is_kb_load out.2 = []
  ∧ List.filter is_banner out.2 = [].
Proof.
  intros i w out.
  assert (Forall (λ i, load_button_clicked i = false) [i; i]) as Hpasses
    by (by repeat constructor).
  split; [reflexivity|]. split; [exact Hpasses|].
  exact (nothing_happens_before_load [i; i] w eq_refl Hpasses).
Defined.

(** ** Questions (lines 159-196) *)

(** An empty question box never reaches the agent, with or without a
    knowledge base: no agent is constructed and the transcript keeps its
    entries. *)
Theorem empty_question_not_asked i w :
  question_widget i = "" →
  List.filter is_agent_event (app i w).2 = []
  ∧ transcript_of (app i w).1.2 = transcript_of w.
Proof.
  intros Hq.
  destruct (pass_chat_summary i w) as [?|(kb & _ & _ & Htruthy & _)]; [done|].
  by rewrite Hq in Htruthy.
Qed.

Lemma empty_question_not_asked_witness :
  let i := example_inputs "https://example.com/document.pdf" "" true
             (example_answer "A field of AI.") in
  let w := new_session example_env None in
  question_widget i = ""
  ∧ List.filter is_agent_event (app i w).2 = []
  ∧ transcript_of (app i w).1.2 = transcript_of w.
Proof.
  intros i w. split; [reflexivity|].
  exact (empty_question_not_asked i w eq_refl).
Defined.

Lemma pass_answers i w kb r :
  credentials_ok (os_environ w) = true →
  load_requested (session_state w) = true →
  resource_cache w = Some (Some kb) →
  str_truthy (question_widget i) = true →
  assistant_run i (new_agent kb) (question_widget i) = Returns r →
  transcript_of (app i w).1.2 =
    transcript_of w ++ [("You", question_widget i); ("Assistant", clean_response r)]
  ∧ credentials_ok (os_environ (app i w).1.2) = true
  ∧ load_requested (session_state (app i w).1.2) = true
  ∧ resource_cache (app i w).1.2 = Some (Some kb).
Proof.
  intros Hc Hflag Hcache Hq Hr.
  assert (credentials_ok (effective_env i w) = true) as Hc'
    by (by apply credentials_ok_union).
  assert (load_button_clicked i || load_requested (session_state w) = true) as Hreq
    by (by rewrite Hflag, orb_true_r).
  pose proof (phase_on_hit i w _ Hc' Hreq Hcache) as Hp.
  rewrite (app_returns _ _ _ _ _ _ Hp Hq Hr). cbn [fst snd].
  destruct (phase_returns _ _ _ _ _ Hp) as [Htr _].
  split_and!.
  - by rewrite <-Htr.
  - change (credentials_ok (os_environ (after_inputs i w)) = true).
    by rewrite os_environ_after_inputs.
  - change (load_requested (session_state (after_inputs i w)) = true).
    by rewrite load_requested_after_inputs.
  - change (resource_cache (after_inputs i w) = Some (Some kb)).
    by rewrite resource_cache_after_inputs.
Qed.

(** The question box is not cleared by line 196: every further pass run
    with the same question still in the box asks the agent again.  With a
    loaded knowledge base and an agent that answers, [n] passes append the
    same turn [n] times. *)
Theorem repeated_pass_repeats_turn n i w kb r :
  credentials_ok (os_environ w) = true →
  load_requested (session_state w) = true →
  resource_cache w = Some (Some kb) →
  str_truthy (question_widget i) = true →
  assistant_run i (new_agent kb) (question_widget i) = Returns r →
  transcript_of (run_passes (replicate n i) w).1 =
    transcript_of w ++
      mjoin (replicate n [("You", question_widget i); ("Assistant", clean_response r)])
  ∧ length (List.filter is_agent_run (run_passes (replicate n i) w).2) = n.
Proof.
  intros Hc Hflag Hcache Hq Hr. revert w Hc Hflag Hcache.
  induction n as [|n IH]; intros w Hc Hflag Hcache.
  - cbn. by rewrite app_nil_r.
  - cbn [replicate]. rewrite run_passes_cons. cbn [fst snd].
    destruct (pass_answers i w kb r Hc Hflag Hcache Hq Hr) as (Htr & Hc' & Hf' & Hv').
    destruct (IH _ Hc' Hf' Hv') as [-> Hn]. rewrite Htr. split.
    + cbn. by rewrite <-(assoc_L (++)).
    + rewrite List.filter_app, length_app, Hn.
      change (S n) with (1 + n). f_equal.
      rewrite filter_agent_run_events.
      destruct (pass_chat_summary i w) as [[Hnone Hsame]|(kb' & -> & _)]; [|done].
      rewrite Hsame in Htr. apply (f_equal length) in Htr.
      rewrite length_app in Htr. cbn in Htr. lia.
Qed.

Lemma repeated_pass_repeats_turn_witness :
  let first := example_inputs "https://example.com/document.pdf" "" true
                 (example_answer "") in
  let i := example_inputs "https://example.com/document.pdf"
             "What is machine learning?" false (example_answer "A field of AI.") in
  let w := (run_passes [first] (new_session example_env None)).1 in
  transcript_of (run_passes (replicate 2 i) w).1 =
    [("You", "What is machine learning?"); ("Assistant", "A field of AI.");
     ("You", "What is machine learning?"); ("Assistant", "A field of AI.")]
  ∧ length (List.filter is_agent_run (run_passes (replicate 2 i) w).2) = 2.
Proof.
  intros first i w.
  assert (∃ kb, resource_cache w = Some (Some kb)) as [kb Hcache]
    by (eexists; vm_compute; reflexivity).
  assert (credentials_ok (os_environ w) = true) as Hc by (vm_compute; reflexivity).
  assert (load_requested (session_state w) = true) as Hflag
    by (vm_compute; reflexivity).
  exact (repeated_pass_repeats_turn 2 i w kb (example_response "A field of AI.")
           Hc Hflag Hcache eq_refl eq_refl).
Defined.
